(** * pythonAST: the AST node model, its renderer and the driver

    A shallow embedding of [parser/ast_nodes.py] and of [main] of
    [python_ast_main.py], with the properties of the rendering traversal.

    Layout of the development:
    - [PyValues]   Python values the renderer formats (ints, floats, bools,
                   truthiness, string repetition);
    - [Ast]        the closed set of node classes, their constructors, and
                   [print_node] as a function from a node and a depth to the
                   strings passed to [print];
    - [Layout]     tag lines, outlines and blanks: the indentation discipline
                   of [print_node]; the lines of the printed text;
    - [Rendering]  what [print_node] prints: depths, sub-headers, order of
                   entries, aliases, loss of information;
    - [Heap]       the same renderer over an object store, with [print] as the
                   only effect, and its agreement with [Ast.print_node];
    - [Classes]    the class table and the resolution of [print_node];
    - [Effects]    determinism and frame of rendering, reachability of the
                   base class's [print_node];
    - [Driver]     [main]: the argument parser, the [try] block with the
                   rendering loop, and the three exception handlers;
    - [Shape]      shifting a rendering, the tag line among the printed
                   strings, and the nodes of a tree inside its rendering;
    - [Tags]       what a rendering keeps of a node: its class, plain
                   leaves, imports;
    - [DriverRuns] exit status and output of [main]. *)

From Stdlib Require Import ZArith String Ascii List Bool Arith Lia DecimalString.
Import ListNotations.
Open Scope string_scope.
Open Scope list_scope.

(** Python's [+] on [str] (an f-string is the concatenation of its pieces);
    binds tighter than [::] and list [++]. *)
Notation "a +++ b" := (String.append a b) (at level 45, right associativity).

(* ================================================================= *)
(** ** Python values used by the renderer *)

Module PyValues.

(** [' ' * n]: the string of [n] blanks.  The depth only ever starts at the
    default [0] and grows by [+ 2], [+ 4], [+ 6], so it is a [nat]. *)
Fixpoint spaces (n : nat) : string :=
  match n with
  | O => ""
  | S k => String " " (spaces k)
  end.

(** [s * n]: [n] copies of [s]. *)
Fixpoint str_mul (s : string) (n : nat) : string :=
  match n with
  | O => ""
  | S k => s +++ str_mul s k
  end.

(** [str(i)] for an [int]: the decimal numeral, with a leading [-] when
    negative. *)
Definition str_int (i : Z) : string := NilZero.string_of_int (Z.to_int i).

(** [str(b)] for a [bool]. *)
Definition str_bool (b : bool) : string := if b then "True" else "False".

(** A Python [float].  The renderer observes a float only through [str]
    (the f-string [{self.value}]), so the model carries a float as the text
    [str] gives for it; that text determines the float, since Python's [repr]
    round-trips. *)
Record pyfloat : Type := PyFloat { str_float : string }.

(** Truthiness of a [str] or [None] value held in an optional-string field:
    [None] and [""] are falsy, every other string is truthy. *)
Definition truthy_str (s : option string) : bool :=
  match s with
  | Some (String _ _) => true
  | _ => false
  end.

(** Truthiness of a list or of a dict given by its items: non-empty. *)
Definition truthy_list {A : Type} (l : list A) : bool :=
  match l with
  | [] => false
  | _ :: _ => true
  end.

(** [x or []] (and [x or {}] on the items of a dict) where [x] is [None]
    (also the omitted argument's default) or a list: a falsy [x] gives a
    fresh empty collection, a truthy one is kept. *)
Definition or_empty {A : Type} (x : option (list A)) : list A :=
  match x with
  | Some (a :: l) => a :: l
  | _ => []
  end.

(** The double-quote character of the f-string in
    [StringLiteralNode.print_node]. *)
Definition dquote : string := String (ascii_of_nat 34) "".

(** What [print] adds to standard output for the given lines: each line
    followed by a newline. *)
Definition stdout_text (lines : list string) : string :=
  fold_right (fun l acc => l +++ String (ascii_of_nat 10) acc) "" lines.

End PyValues.
Import PyValues.

(* ================================================================= *)
(** ** The node classes and [print_node] *)

Module Ast.

(** One constructor per concrete class of [ast_nodes.py], with the fields its
    [__init__] sets.  A field that holds a node or [None] is an [option]; a
    dict ([keyword_args]) is the list of its items in insertion order. *)
#[local] Set Warnings "-register-all".
Inductive node : Type :=
  | IntLiteralNode (value : Z)
  | FloatLiteralNode (value : pyfloat)
  | StringLiteralNode (value : string) (is_f_string : bool)
  | BoolLiteralNode (value : bool)
  | NoneLiteralNode
  | IdentifierNode (name : string)
  | BinaryOpNode (op : string) (left right : node)
  | AssignmentNode (target value : node)
  | FunctionCallNode (callable : node) (arguments : list node)
                     (keyword_args : list (string * node))
  | ParameterNode (name : string) (default_value : option node)
                  (is_keyword_only : bool)
  | FunctionDefNode (name : string) (parameters : list node) (body : list node)
  | ClassDefNode (name : string) (bases : list node) (body : list node)
  | ReturnNode (value : option node)
  | ImportNode (module : string) (alias : option string)
  | FromImportNode (module : string) (imports : list (string * option string))
  | IfNode (condition : node) (then_body else_body : list node)
  | WhileNode (condition : node) (body : list node)
  | ForNode (target iterable : node) (body : list node)
  | AttributeNode (value : node) (attr : string)
  | ListNode (elements : list node)
  | DictNode (items : list (node * node))
  | SubscriptNode (value index : node)
  | PassNode
  | BreakNode
  | ContinueNode.

(** [print_node(self, indent)]: the lines printed, in order, one per call of
    [print].  A [for] loop over a list is the concatenation, in list order, of
    what its body prints. *)
Fixpoint print_node (self : node) (indent : nat) : list string :=
  match self with
  | IntLiteralNode value =>
      [spaces indent +++ "IntLiteral(" +++ str_int value +++ ")"]
  | FloatLiteralNode value =>
      [spaces indent +++ "FloatLiteral(" +++ str_float value +++ ")"]
  | StringLiteralNode value is_f_string =>
      let node_type := if is_f_string then "FString" else "StringLiteral" in
      [spaces indent +++ node_type +++ "(" +++ dquote +++ value +++ dquote +++ ")"]
  | BoolLiteralNode value =>
      [spaces indent +++ "BoolLiteral(" +++ str_bool value +++ ")"]
  | NoneLiteralNode =>
      [spaces indent +++ "None"]
  | IdentifierNode name =>
      [spaces indent +++ "Identifier(" +++ name +++ ")"]
  | BinaryOpNode op lhs rhs =>
      [spaces indent +++ "BinaryOp(" +++ op +++ ")"]
      ++ print_node lhs (indent + 2)
      ++ print_node rhs (indent + 2)
  | AssignmentNode target value =>
      [spaces indent +++ "Assignment"]
      ++ [spaces (indent + 2) +++ "Target:"]
      ++ print_node target (indent + 4)
      ++ [spaces (indent + 2) +++ "Value:"]
      ++ print_node value (indent + 4)
  | FunctionCallNode callable arguments keyword_args =>
      [spaces indent +++ "FunctionCall"]
      ++ [spaces (indent + 2) +++ "Callable:"]
      ++ print_node callable (indent + 4)
      ++ (if truthy_list arguments then
            [spaces (indent + 2) +++ "Arguments:"]
            ++ flat_map (fun arg => print_node arg (indent + 4)) arguments
          else [])
      ++ (if truthy_list keyword_args then
            [spaces (indent + 2) +++ "Keyword Arguments:"]
            ++ flat_map (fun kv =>
                 match kv with
                 | (key, value) =>
                     [spaces (indent + 4) +++ key +++ ":"]
                     ++ print_node value (indent + 6)
                 end) keyword_args
          else [])
  | ParameterNode name default_value is_keyword_only =>
      let param_info :=
        if is_keyword_only then name +++ ", keyword-only" else name in
      [spaces indent +++ "Parameter(" +++ param_info +++ ")"]
      ++ match default_value with
         | Some dv =>
             [spaces (indent + 2) +++ "Default Value:"]
             ++ print_node dv (indent + 4)
         | None => []
         end
  | FunctionDefNode name parameters body =>
      [spaces indent +++ "FunctionDef(" +++ name +++ ")"]
      ++ [spaces (indent + 2) +++ "Parameters:"]
      ++ flat_map (fun param => print_node param (indent + 4)) parameters
      ++ [spaces (indent + 2) +++ "Body:"]
      ++ flat_map (fun stmt => print_node stmt (indent + 4)) body
  | ClassDefNode name bases body =>
      [spaces indent +++ "ClassDef(" +++ name +++ ")"]
      ++ (if truthy_list bases then
            [spaces (indent + 2) +++ "Bases:"]
            ++ flat_map (fun base => print_node base (indent + 4)) bases
          else [])
      ++ [spaces (indent + 2) +++ "Body:"]
      ++ flat_map (fun stmt => print_node stmt (indent + 4)) body
  | ReturnNode value =>
      [spaces indent +++ "Return"]
      ++ match value with
         | Some v => print_node v (indent + 2)
         | None => []
         end
  | ImportNode module alias =>
      let import_info :=
        if truthy_str alias
        then module +++ " as " +++ match alias with Some a => a | None => "" end
        else module in
      [spaces indent +++ "Import(" +++ import_info +++ ")"]
  | FromImportNode module imports =>
      [spaces indent +++ "FromImport(" +++ module +++ ")"]
      ++ [spaces (indent + 2) +++ "Names:"]
      ++ flat_map (fun na =>
           match na with
           | (name, alias) =>
               let import_info :=
                 if truthy_str alias
                 then name +++ " as "
                      +++ match alias with Some a => a | None => "" end
                 else name in
               [spaces (indent + 4) +++ import_info]
           end) imports
  | IfNode condition then_body else_body =>
      [spaces indent +++ "If"]
      ++ [spaces (indent + 2) +++ "Condition:"]
      ++ print_node condition (indent + 4)
      ++ [spaces (indent + 2) +++ "Then:"]
      ++ flat_map (fun stmt => print_node stmt (indent + 4)) then_body
      ++ (if truthy_list else_body then
            [spaces (indent + 2) +++ "Else:"]
            ++ flat_map (fun stmt => print_node stmt (indent + 4)) else_body
          else [])
  | WhileNode condition body =>
      [spaces indent +++ "While"]
      ++ [spaces (indent + 2) +++ "Condition:"]
      ++ print_node condition (indent + 4)
      ++ [spaces (indent + 2) +++ "Body:"]
      ++ flat_map (fun stmt => print_node stmt (indent + 4)) body
  | ForNode target iterable body =>
      [spaces indent +++ "For"]
      ++ [spaces (indent + 2) +++ "Target:"]
      ++ print_node target (indent + 4)
      ++ [spaces (indent + 2) +++ "Iterable:"]
      ++ print_node iterable (indent + 4)
      ++ [spaces (indent + 2) +++ "Body:"]
      ++ flat_map (fun stmt => print_node stmt (indent + 4)) body
  | AttributeNode value attr =>
      [spaces indent +++ "Attribute(" +++ attr +++ ")"]
      ++ [spaces (indent + 2) +++ "Value:"]
      ++ print_node value (indent + 4)
  | ListNode elements =>
      [spaces indent +++ "List"]
      ++ (if truthy_list elements then
            [spaces (indent + 2) +++ "Elements:"]
            ++ flat_map (fun element => print_node element (indent + 4)) elements
          else [])
  | DictNode items =>
      [spaces indent +++ "Dict"]
      ++ (if truthy_list items then
            [spaces (indent + 2) +++ "Items:"]
            ++ flat_map (fun kv =>
                 match kv with
                 | (key, value) =>
                     [spaces (indent + 4) +++ "Key:"]
                     ++ print_node key (indent + 6)
                     ++ [spaces (indent + 4) +++ "Value:"]
                     ++ print_node value (indent + 6)
                 end) items
          else [])
  | SubscriptNode value index =>
      [spaces indent +++ "Subscript"]
      ++ [spaces (indent + 2) +++ "Value:"]
      ++ print_node value (indent + 4)
      ++ [spaces (indent + 2) +++ "Index:"]
      ++ print_node index (indent + 4)
  | PassNode => [spaces indent +++ "Pass"]
  | BreakNode => [spaces indent +++ "Break"]
  | ContinueNode => [spaces indent +++ "Continue"]
  end.

(** *** The constructors with optional collections

    [__init__] of the nine classes that take a collection with default
    [None]: the argument is [None] (given or omitted) or a collection, and
    the field is set to [argument or []] ([or {}] for [keyword_args]). *)

Definition FunctionCallNode__init__ (callable_obj : node)
    (arguments : option (list node))
    (keyword_args : option (list (string * node))) : node :=
  FunctionCallNode callable_obj (or_empty arguments) (or_empty keyword_args).

Definition FunctionDefNode__init__ (name : string)
    (parameters body : option (list node)) : node :=
  FunctionDefNode name (or_empty parameters) (or_empty body).

Definition ClassDefNode__init__ (name : string)
    (bases body : option (list node)) : node :=
  ClassDefNode name (or_empty bases) (or_empty body).

Definition FromImportNode__init__ (module : string)
    (imports : option (list (string * option string))) : node :=
  FromImportNode module (or_empty imports).

Definition IfNode__init__ (condition : node)
    (then_body else_body : option (list node)) : node :=
  IfNode condition (or_empty then_body) (or_empty else_body).

Definition WhileNode__init__ (condition : node)
    (body : option (list node)) : node :=
  WhileNode condition (or_empty body).

Definition ForNode__init__ (target iterable : node)
    (body : option (list node)) : node :=
  ForNode target iterable (or_empty body).

Definition ListNode__init__ (elements : option (list node)) : node :=
  ListNode (or_empty elements).

Definition DictNode__init__ (items : option (list (node * node))) : node :=
  DictNode (or_empty items).

(** The collection a constructor argument stands for: the empty one for
    [None], itself otherwise. *)
Definition collection_of {A : Type} (x : option (list A)) : list A :=
  match x with
  | Some l => l
  | None => []
  end.

Lemma or_empty_collection {A : Type} (x : option (list A)) :
  or_empty x = collection_of x.
Proof. destruct x as [[|a l]|]; reflexivity. Qed.

(** *** Induction over trees

    The generated principle gives no hypothesis for the nodes held in lists,
    pairs and optional fields; this one does. *)

Definition on_option (P : node -> Prop) (o : option node) : Prop :=
  match o with
  | Some x => P x
  | None => True
  end.

Section node_induction.
Variable P : node -> Prop.

Hypothesis H_IntLiteral : forall value, P (IntLiteralNode value).
Hypothesis H_FloatLiteral : forall value, P (FloatLiteralNode value).
Hypothesis H_StringLiteral : forall value f, P (StringLiteralNode value f).
Hypothesis H_BoolLiteral : forall value, P (BoolLiteralNode value).
Hypothesis H_NoneLiteral : P NoneLiteralNode.
Hypothesis H_Identifier : forall name, P (IdentifierNode name).
Hypothesis H_BinaryOp : forall op lhs rhs,
    P lhs -> P rhs -> P (BinaryOpNode op lhs rhs).
Hypothesis H_Assignment : forall target value,
    P target -> P value -> P (AssignmentNode target value).
Hypothesis H_FunctionCall : forall callable arguments keyword_args,
    P callable -> Forall P arguments ->
    Forall (fun kv => P (snd kv)) keyword_args ->
    P (FunctionCallNode callable arguments keyword_args).
Hypothesis H_Parameter : forall name default_value kw,
    on_option P default_value -> P (ParameterNode name default_value kw).
Hypothesis H_FunctionDef : forall name parameters body,
    Forall P parameters -> Forall P body ->
    P (FunctionDefNode name parameters body).
Hypothesis H_ClassDef : forall name bases body,
    Forall P bases -> Forall P body -> P (ClassDefNode name bases body).
Hypothesis H_Return : forall value, on_option P value -> P (ReturnNode value).
Hypothesis H_Import : forall module alias, P (ImportNode module alias).
Hypothesis H_FromImport : forall module imports,
    P (FromImportNode module imports).
Hypothesis H_If : forall condition then_body else_body,
    P condition -> Forall P then_body -> Forall P else_body ->
    P (IfNode condition then_body else_body).
Hypothesis H_While : forall condition body,
    P condition -> Forall P body -> P (WhileNode condition body).
Hypothesis H_For : forall target iterable body,
    P target -> P iterable -> Forall P body ->
    P (ForNode target iterable body).
Hypothesis H_Attribute : forall value attr,
    P value -> P (AttributeNode value attr).
Hypothesis H_List : forall elements,
    Forall P elements -> P (ListNode elements).
Hypothesis H_Dict : forall items,
    Forall (fun kv => P (fst kv) /\ P (snd kv)) items -> P (DictNode items).
Hypothesis H_Subscript : forall value index,
    P value -> P index -> P (SubscriptNode value index).
Hypothesis H_Pass : P PassNode.
Hypothesis H_Break : P BreakNode.
Hypothesis H_Continue : P ContinueNode.

Fixpoint node_nested_ind (n : node) : P n :=
  let all :=
    fix all (l : list node) : Forall P l :=
      match l with
      | [] => Forall_nil P
      | x :: l' => Forall_cons x (node_nested_ind x) (all l')
      end in
  let all_kw :=
    fix all_kw (l : list (string * node))
      : Forall (fun kv => P (snd kv)) l :=
      match l with
      | [] => Forall_nil _
      | (k, v) :: l' => Forall_cons (k, v) (node_nested_ind v) (all_kw l')
      end in
  let all_items :=
    fix all_items (l : list (node * node))
      : Forall (fun kv => P (fst kv) /\ P (snd kv)) l :=
      match l with
      | [] => Forall_nil _
      | (k, v) :: l' =>
          Forall_cons (k, v)
            (conj (node_nested_ind k) (node_nested_ind v)) (all_items l')
      end in
  let opt (o : option node) : on_option P o :=
    match o with
    | Some x => node_nested_ind x
    | None => I
    end in
  match n with
  | IntLiteralNode v => H_IntLiteral v
  | FloatLiteralNode v => H_FloatLiteral v
  | StringLiteralNode v f => H_StringLiteral v f
  | BoolLiteralNode v => H_BoolLiteral v
  | NoneLiteralNode => H_NoneLiteral
  | IdentifierNode name => H_Identifier name
  | BinaryOpNode op l r =>
      H_BinaryOp op l r (node_nested_ind l) (node_nested_ind r)
  | AssignmentNode t v =>
      H_Assignment t v (node_nested_ind t) (node_nested_ind v)
  | FunctionCallNode c args kw =>
      H_FunctionCall c args kw (node_nested_ind c) (all args) (all_kw kw)
  | ParameterNode name dv kw => H_Parameter name dv kw (opt dv)
  | FunctionDefNode name ps body =>
      H_FunctionDef name ps body (all ps) (all body)
  | ClassDefNode name bases body =>
      H_ClassDef name bases body (all bases) (all body)
  | ReturnNode v => H_Return v (opt v)
  | ImportNode m a => H_Import m a
  | FromImportNode m imports => H_FromImport m imports
  | IfNode c t e =>
      H_If c t e (node_nested_ind c) (all t) (all e)
  | WhileNode c body => H_While c body (node_nested_ind c) (all body)
  | ForNode t i body =>
      H_For t i body (node_nested_ind t) (node_nested_ind i) (all body)
  | AttributeNode v attr => H_Attribute v attr (node_nested_ind v)
  | ListNode elements => H_List elements (all elements)
  | DictNode items => H_Dict items (all_items items)
  | SubscriptNode v i =>
      H_Subscript v i (node_nested_ind v) (node_nested_ind i)
  | PassNode => H_Pass
  | BreakNode => H_Break
  | ContinueNode => H_Continue
  end.
End node_induction.

End Ast.

(* ================================================================= *)
(** ** The indentation discipline of [print_node] *)

Module Layout.
Import Ast.

(** *** Blanks at the head of a line *)

(** Number of blanks a line starts with. *)
Fixpoint indent_of (s : string) : nat :=
  match s with
  | String c rest => if Ascii.eqb c " " then S (indent_of rest) else 0
  | EmptyString => 0
  end.

Lemma append_assoc (a b c : string) : (a +++ b) +++ c = a +++ b +++ c.
Proof. induction a as [|x a IH]; simpl; [reflexivity | now rewrite IH]. Qed.

Lemma append_inv_head (a x y : string) : a +++ x = a +++ y -> x = y.
Proof.
  induction a as [|c a IH]; simpl; intros H; [exact H|].
  injection H as H. now apply IH.
Qed.

Lemma spaces_add (a b : nat) : spaces (a + b) = spaces a +++ spaces b.
Proof. induction a as [|a IH]; simpl; [reflexivity | now rewrite IH]. Qed.

Lemma indent_of_spaces (k : nat) (s : string) :
  indent_of (spaces k +++ s) = k + indent_of s.
Proof. induction k as [|k IH]; simpl; [reflexivity | now rewrite IH]. Qed.

(** Every line of [ls] starts with at least [d] blanks. *)
Definition indented (d : nat) (ls : list string) : Prop :=
  Forall (fun l => d <= indent_of l) ls.

Lemma indented_weaken (d d' : nat) (ls : list string) :
  d <= d' -> indented d' ls -> indented d ls.
Proof.
  intros Hd H. eapply Forall_impl; [|exact H]. simpl. intros; lia.
Qed.

Lemma indented_nil (d : nat) : indented d [].
Proof. constructor. Qed.

Lemma indented_app (d : nat) (l1 l2 : list string) :
  indented d l1 -> indented d l2 -> indented d (l1 ++ l2).
Proof. intros H1 H2. apply Forall_app; split; assumption. Qed.

Lemma indented_if (d : nat) (b : bool) (ls : list string) :
  indented d ls -> indented d (if b then ls else []).
Proof. destruct b; [trivial | intros _; apply indented_nil]. Qed.

Lemma indented_cons (d k : nat) (s : string) (ls : list string) :
  d <= k -> indented d ls -> indented d ((spaces k +++ s) :: ls).
Proof.
  intros H Hls. constructor; [|exact Hls]. rewrite indent_of_spaces. lia.
Qed.

Lemma indented_flat_map {A : Type} (f : A -> list string) (l : list A) (d : nat) :
  (forall x, In x l -> indented d (f x)) -> indented d (flat_map f l).
Proof.
  induction l as [|x l IH]; simpl; intros H; [apply indented_nil|].
  apply indented_app; [apply H; now left | apply IH; intros; apply H; now right].
Qed.

(** Everything [print_node] prints at depth [d] starts with at least [d]
    blanks. *)
Lemma print_node_indented (n : node) : forall d, indented d (print_node n d).
Proof.
  induction n using node_nested_ind; intros d; simpl;
    repeat match goal with
      | |- indented _ [] => apply indented_nil
      | |- indented _ (_ ++ _) => apply indented_app
      | |- indented _ ((_ +++ _) :: _) => apply indented_cons; [lia|]
      | |- indented _ (if _ then _ else []) => apply indented_if
      | |- indented _ (match ?o with Some _ => _ | None => _ end) =>
          destruct o; simpl in *
      | |- indented _ (match ?kv with (_, _) => _ end) => destruct kv; simpl in *
      | H : forall d, indented d (print_node ?c d)
        |- indented ?d (print_node ?c ?k) =>
          apply (indented_weaken d k); [lia | apply H]
      | |- indented _ (flat_map _ _) =>
          apply indented_flat_map; let x := fresh "x" in
                                   let Hx := fresh "Hx" in intros x Hx
      | H : Forall _ ?l, Hx : In _ ?l |- _ =>
          rewrite Forall_forall in H; specialize (H _ Hx); simpl in H
      | H : _ /\ _ |- _ => destruct H
      end.
Qed.

(** *** The tag line, the recursive calls and the outline of a node *)

(** The text of the first line [print_node] prints, after the blanks. *)
Definition tag (self : node) : string :=
  match self with
  | IntLiteralNode value => "IntLiteral(" +++ str_int value +++ ")"
  | FloatLiteralNode value => "FloatLiteral(" +++ str_float value +++ ")"
  | StringLiteralNode value is_f_string =>
      (if is_f_string then "FString" else "StringLiteral")
      +++ "(" +++ dquote +++ value +++ dquote +++ ")"
  | BoolLiteralNode value => "BoolLiteral(" +++ str_bool value +++ ")"
  | NoneLiteralNode => "None"
  | IdentifierNode name => "Identifier(" +++ name +++ ")"
  | BinaryOpNode op _ _ => "BinaryOp(" +++ op +++ ")"
  | AssignmentNode _ _ => "Assignment"
  | FunctionCallNode _ _ _ => "FunctionCall"
  | ParameterNode name _ is_keyword_only =>
      "Parameter("
      +++ (if is_keyword_only then name +++ ", keyword-only" else name) +++ ")"
  | FunctionDefNode name _ _ => "FunctionDef(" +++ name +++ ")"
  | ClassDefNode name _ _ => "ClassDef(" +++ name +++ ")"
  | ReturnNode _ => "Return"
  | ImportNode module alias =>
      "Import("
      +++ (if truthy_str alias
           then module +++ " as " +++ match alias with Some a => a | None => "" end
           else module)
      +++ ")"
  | FromImportNode module _ => "FromImport(" +++ module +++ ")"
  | IfNode _ _ _ => "If"
  | WhileNode _ _ => "While"
  | ForNode _ _ _ => "For"
  | AttributeNode _ attr => "Attribute(" +++ attr +++ ")"
  | ListNode _ => "List"
  | DictNode _ => "Dict"
  | SubscriptNode _ _ => "Subscript"
  | PassNode => "Pass"
  | BreakNode => "Break"
  | ContinueNode => "Continue"
  end.

(** The calls [child.print_node(indent + k)] that [self.print_node(indent)]
    makes, in the order it makes them, each with the depth it passes. *)
Definition child_calls (self : node) (indent : nat) : list (node * nat) :=
  match self with
  | BinaryOpNode _ lhs rhs => [(lhs, indent + 2); (rhs, indent + 2)]
  | AssignmentNode target value => [(target, indent + 4); (value, indent + 4)]
  | FunctionCallNode callable arguments keyword_args =>
      [(callable, indent + 4)]
      ++ map (fun arg => (arg, indent + 4)) arguments
      ++ map (fun kv => (snd kv, indent + 6)) keyword_args
  | ParameterNode _ (Some dv) _ => [(dv, indent + 4)]
  | FunctionDefNode _ parameters body =>
      map (fun param => (param, indent + 4)) parameters
      ++ map (fun stmt => (stmt, indent + 4)) body
  | ClassDefNode _ bases body =>
      map (fun base => (base, indent + 4)) bases
      ++ map (fun stmt => (stmt, indent + 4)) body
  | ReturnNode (Some v) => [(v, indent + 2)]
  | IfNode condition then_body else_body =>
      [(condition, indent + 4)]
      ++ map (fun stmt => (stmt, indent + 4)) then_body
      ++ map (fun stmt => (stmt, indent + 4)) else_body
  | WhileNode condition body =>
      [(condition, indent + 4)] ++ map (fun stmt => (stmt, indent + 4)) body
  | ForNode target iterable body =>
      [(target, indent + 4); (iterable, indent + 4)]
      ++ map (fun stmt => (stmt, indent + 4)) body
  | AttributeNode value _ => [(value, indent + 4)]
  | ListNode elements => map (fun element => (element, indent + 4)) elements
  | DictNode items =>
      flat_map (fun kv => [(fst kv, indent + 6); (snd kv, indent + 6)]) items
  | SubscriptNode value index => [(value, indent + 4); (index, indent + 4)]
  | _ => []
  end.

(** The shape of what is printed under a tag line: [Label text under] is a
    printed line with [under] nested below it, [Sub child] a recursive call. *)
#[local] Set Warnings "-register-all".
Inductive outline : Type :=
  | Label (text : string) (under : list outline)
  | Sub (child : node).

(** Rendering an outline at depth [k]: a label is printed at [k] and what is
    under it two deeper; a child is rendered at [k]. *)
Fixpoint render (k : nat) (o : outline) : list string :=
  match o with
  | Label text under => (spaces k +++ text) :: flat_map (render (k + 2)) under
  | Sub child => print_node child k
  end.

(** The recursive calls of an outline rendered at depth [k]. *)
Fixpoint calls (k : nat) (o : outline) : list (node * nat) :=
  match o with
  | Label _ under => flat_map (calls (k + 2)) under
  | Sub child => [(child, k)]
  end.

(** Number of labels above the deepest call or line of an outline. *)
Fixpoint nesting (o : outline) : nat :=
  match o with
  | Label _ under => S (list_max (map nesting under))
  | Sub _ => 0
  end.

(** The suffix an alias contributes to an import line. *)
Definition alias_suffix (alias : option string) : string :=
  if truthy_str alias
  then " as " +++ match alias with Some a => a | None => "" end
  else "".

(** The outline of each class's [print_node], read off its body: the
    sub-headers, the labels nested under them and the children. *)
Definition outline_of (self : node) : list outline :=
  match self with
  | BinaryOpNode _ lhs rhs => [Sub lhs; Sub rhs]
  | AssignmentNode target value =>
      [Label "Target:" [Sub target]; Label "Value:" [Sub value]]
  | FunctionCallNode callable arguments keyword_args =>
      [Label "Callable:" [Sub callable]]
      ++ (if truthy_list arguments
          then [Label "Arguments:" (map Sub arguments)] else [])
      ++ (if truthy_list keyword_args
          then [Label "Keyword Arguments:"
                  (map (fun kv => Label (fst kv +++ ":") [Sub (snd kv)])
                       keyword_args)]
          else [])
  | ParameterNode _ (Some dv) _ => [Label "Default Value:" [Sub dv]]
  | FunctionDefNode _ parameters body =>
      [Label "Parameters:" (map Sub parameters); Label "Body:" (map Sub body)]
  | ClassDefNode _ bases body =>
      (if truthy_list bases then [Label "Bases:" (map Sub bases)] else [])
      ++ [Label "Body:" (map Sub body)]
  | ReturnNode (Some v) => [Sub v]
  | FromImportNode _ imports =>
      [Label "Names:"
         (map (fun na => Label (fst na +++ alias_suffix (snd na)) []) imports)]
  | IfNode condition then_body else_body =>
      [Label "Condition:" [Sub condition]; Label "Then:" (map Sub then_body)]
      ++ (if truthy_list else_body
          then [Label "Else:" (map Sub else_body)] else [])
  | WhileNode condition body =>
      [Label "Condition:" [Sub condition]; Label "Body:" (map Sub body)]
  | ForNode target iterable body =>
      [Label "Target:" [Sub target]; Label "Iterable:" [Sub iterable];
       Label "Body:" (map Sub body)]
  | AttributeNode value _ => [Label "Value:" [Sub value]]
  | ListNode elements =>
      if truthy_list elements then [Label "Elements:" (map Sub elements)] else []
  | DictNode items =>
      if truthy_list items
      then [Label "Items:"
              (flat_map (fun kv => [Label "Key:" [Sub (fst kv)];
                                    Label "Value:" [Sub (snd kv)]]) items)]
      else []
  | SubscriptNode value index =>
      [Label "Value:" [Sub value]; Label "Index:" [Sub index]]
  | _ => []
  end.

(** *** [print_node] follows its outline *)

Lemma flat_map_map {A B C : Type} (f : B -> list C) (g : A -> B) (l : list A) :
  flat_map f (map g l) = flat_map (fun x => f (g x)) l.
Proof. induction l as [|x l IH]; simpl; [reflexivity | now rewrite IH]. Qed.

Lemma flat_map_flat_map {A B C : Type}
      (f : B -> list C) (g : A -> list B) (l : list A) :
  flat_map f (flat_map g l) = flat_map (fun x => flat_map f (g x)) l.
Proof.
  induction l as [|x l IH]; simpl; [reflexivity|].
  now rewrite flat_map_app, IH.
Qed.

Lemma add_2_2 (d : nat) : d + 2 + 2 = d + 4.
Proof. lia. Qed.

Lemma add_4_2 (d : nat) : d + 4 + 2 = d + 6.
Proof. lia. Qed.

Lemma add_2_4 (d : nat) : d + 2 + 4 = d + 6.
Proof. lia. Qed.

Lemma append_empty_r (s : string) : s +++ "" = s.
Proof. induction s as [|c s IH]; simpl; [reflexivity | now rewrite IH]. Qed.

Ltac same_shape :=
  repeat match goal with
    | |- _ :: _ = _ :: _ => apply (f_equal2 cons); [reflexivity|]
    | |- _ ++ _ = _ ++ _ => apply (f_equal2 (@app _))
    | |- flat_map _ ?l = flat_map _ ?l =>
        apply flat_map_ext; intros [? ?]; simpl;
        rewrite ?app_nil_r; unfold alias_suffix
    | |- context [truthy_str ?a] => destruct (truthy_str a)
    | |- _ => rewrite append_empty_r
    | |- _ => reflexivity
    end.

Ltac outline_norm :=
  repeat (rewrite ?flat_map_map, ?flat_map_flat_map, ?flat_map_app,
            ?app_nil_r, ?add_2_2, ?add_4_2, ?add_2_4, <- ?app_assoc;
          simpl).

(** What a node prints is its tag line at the given depth followed by its
    outline rendered two deeper. *)
Lemma print_node_outline (n : node) (d : nat) :
  print_node n d
  = (spaces d +++ tag n) :: flat_map (render (d + 2)) (outline_of n).
Proof.
  destruct n; simpl; try reflexivity;
    repeat match goal with
      | |- context [truthy_list ?l] => destruct (truthy_list l); simpl
      | |- context [match ?o with Some _ => _ | None => _ end] =>
          destruct o; simpl
      end;
    outline_norm; same_shape.
Qed.

Lemma flat_map_singleton {A B : Type} (f : A -> B) (l : list A) :
  flat_map (fun x => [f x]) l = map f l.
Proof. induction l as [|x l IH]; simpl; [reflexivity | now rewrite IH]. Qed.

Lemma flat_map_no_calls {A B : Type} (l : list A) :
  flat_map (fun _ : A => @nil B) l = [].
Proof. induction l as [|x l IH]; simpl; [reflexivity | exact IH]. Qed.

(** The recursive calls are those of the outline, rendered two deeper than
    the tag line. *)
Lemma child_calls_outline (n : node) (d : nat) :
  child_calls n d = flat_map (calls (d + 2)) (outline_of n).
Proof.
  destruct n; simpl; try reflexivity;
    repeat match goal with
      | |- context [truthy_list ?l] => destruct l; simpl
      | |- context [match ?o with Some _ => _ | None => _ end] =>
          destruct o; simpl
      end;
    outline_norm; rewrite ?flat_map_singleton, ?flat_map_no_calls; reflexivity.
Qed.

(** No tag starts with a blank. *)
Lemma tag_not_blank (n : node) : indent_of (tag n) = 0.
Proof. destruct n; simpl; try reflexivity; destruct is_f_string; reflexivity. Qed.

(** *** Telling lines apart *)

Lemma line_eq_inv (a b : nat) (s t : string) :
  spaces a +++ s = spaces b +++ t ->
  indent_of s = 0 -> indent_of t = 0 -> a = b /\ s = t.
Proof.
  intros H Hs Ht.
  assert (a = b) as ->.
  { apply (f_equal indent_of) in H. rewrite !indent_of_spaces in H. lia. }
  split; [reflexivity | exact (append_inv_head _ _ _ H)].
Qed.

Lemma not_in_deeper (a k : nat) (h : string) (ls : list string) :
  indented k ls -> a + indent_of h < k -> ~ In (spaces a +++ h) ls.
Proof.
  intros Hls Hlt Hin. unfold indented in Hls. rewrite Forall_forall in Hls.
  specialize (Hls _ Hin). rewrite indent_of_spaces in Hls. lia.
Qed.

(** Proves that a block printed below a header is indented deeper. *)
Ltac deeper :=
  repeat match goal with
    | |- indented _ [] => apply indented_nil
    | |- indented _ (_ ++ _) => apply indented_app
    | |- indented _ ((_ +++ _) :: _) => apply indented_cons; [lia|]
    | |- indented _ (if _ then _ else []) => apply indented_if
    | |- indented _ (match ?kv with (_, _) => _ end) => destruct kv; simpl
    | |- indented ?d (print_node ?c ?k) =>
        apply (indented_weaken d k); [lia | apply print_node_indented]
    | |- indented _ (flat_map _ _) =>
        apply indented_flat_map; intros ? _
    end.

(** Decides whether a header line occurs in what a node prints. *)
Ltac header_cases H :=
  simpl in H;
  repeat match type of H with
    | _ \/ _ => destruct H as [H|H]
    | In _ (_ ++ _) => apply in_app_or in H
    | In _ (_ :: _) => simpl in H
    | In _ [] => destruct H
    | In _ (if truthy_list ?l then _ else _) => destruct l; simpl in H
    | False => destruct H
    | spaces _ +++ _ = spaces _ +++ _ =>
        apply line_eq_inv in H; [destruct H; try discriminate; try lia
                                | reflexivity | reflexivity]
    | In (spaces ?a +++ ?h) ?ls =>
        exfalso; revert H; apply (not_in_deeper a (a + 2)); [deeper | simpl; lia]
    end.

(** *** Depth of the outline *)

Lemma Forall_map_intro {A B : Type} (P : B -> Prop) (f : A -> B) (l : list A) :
  (forall x, P (f x)) -> Forall P (map f l).
Proof. intros H. induction l; simpl; constructor; auto. Qed.

Lemma Forall_flat_map_intro {A B : Type}
      (P : B -> Prop) (f : A -> list B) (l : list A) :
  (forall x, Forall P (f x)) -> Forall P (flat_map f l).
Proof.
  intros H. induction l; simpl; [constructor | apply Forall_app; auto].
Qed.

Lemma nesting_label (text : string) (under : list outline) (k : nat) :
  Forall (fun o => nesting o <= k) under -> nesting (Label text under) <= S k.
Proof.
  intros H. simpl. apply le_n_S. apply list_max_le.
  rewrite Forall_map. exact H.
Qed.

(** No outline nests more than two labels: a sub-header, and under it at
    most one label of a pair. *)
Lemma outline_nesting (n : node) : Forall (fun o => nesting o <= 2) (outline_of n).
Proof.
  destruct n; simpl;
    repeat match goal with
      | |- Forall _ [] => constructor
      | |- Forall _ (_ :: _) => constructor
      | |- Forall _ (_ ++ _) => apply Forall_app; split
      | |- Forall _ (if ?b then _ else _) => destruct b
      | |- Forall _ (match ?o with Some _ => _ | None => _ end) => destruct o
      | |- Forall _ (map _ _) => apply Forall_map_intro; intros
      | |- Forall _ (flat_map _ _) => apply Forall_flat_map_intro; intros
      | |- nesting (Label _ _) <= S _ => apply nesting_label
      | |- nesting (Sub _) <= _ => simpl; lia
      end.
Qed.

(** Every recursive call is made two, four or six deeper than the caller. *)
Lemma child_calls_depth (n : node) (d : nat) :
  Forall (fun ck => snd ck = d + 2 \/ snd ck = d + 4 \/ snd ck = d + 6)
         (child_calls n d).
Proof.
  destruct n; simpl;
    repeat match goal with
      | |- Forall _ [] => constructor
      | |- Forall _ (_ :: _) => constructor
      | |- Forall _ (_ ++ _) => apply Forall_app; split
      | |- Forall _ (match ?o with Some _ => _ | None => _ end) => destruct o
      | |- Forall _ (map _ _) => apply Forall_map_intro; intros
      | |- Forall _ (flat_map _ _) => apply Forall_flat_map_intro; intros
      | |- _ \/ _ => simpl; lia
      end.
Qed.

(** *** The tag line among the printed strings *)

(** Everything after the tag line is at least two deeper. *)
Lemma rest_indented (n : node) (d : nat) :
  indented (d + 2) (tl (print_node n d)).
Proof.
  destruct n; simpl;
    repeat match goal with
      | |- context [match ?o with Some _ => _ | None => _ end] =>
          destruct o; simpl
      end;
    deeper.
Qed.

Lemma filter_none {A : Type} (p : A -> bool) (l : list A) :
  Forall (fun x => p x = false) l -> filter p l = [].
Proof.
  induction 1 as [|x l Hx _ IH]; simpl; [reflexivity|]. now rewrite Hx.
Qed.

Lemma tag_line_filter (n : node) (d : nat) :
  filter (fun l => Nat.eqb (indent_of l) d) (print_node n d) = [spaces d +++ tag n].
Proof.
  pose proof (rest_indented n d) as Hrest.
  rewrite print_node_outline in *. simpl in *.
  rewrite indent_of_spaces, tag_not_blank, Nat.add_0_r, Nat.eqb_refl.
  f_equal. apply filter_none. eapply Forall_impl; [|exact Hrest].
  simpl. intros l Hl. apply Nat.eqb_neq. lia.
Qed.

(** *** The lines of the printed text *)

(** The newline [print] ends each string with. *)
Definition newline : ascii := ascii_of_nat 10.

(** No newline inside the string. *)
Fixpoint newline_free (s : string) : bool :=
  match s with
  | "" => true
  | String c rest => negb (Ascii.eqb c newline) && newline_free rest
  end.

(** The lines of a text: its pieces between newlines, without the empty
    piece after a final newline. *)
Fixpoint text_lines (text : string) : list string :=
  match text with
  | "" => []
  | String c rest =>
      if Ascii.eqb c newline then "" :: text_lines rest
      else match text_lines rest with
           | [] => [String c ""]
           | line :: lines => String c line :: lines
           end
  end.

Lemma text_lines_line (l rest : string) :
  newline_free l = true ->
  text_lines (l +++ String newline rest) = l :: text_lines rest.
Proof.
  induction l as [|c l IH]; simpl; intros H; [reflexivity|].
  apply andb_prop in H. destruct H as [Hc Hl].
  apply negb_true_iff in Hc. rewrite Hc, (IH Hl). reflexivity.
Qed.

(** When no printed string holds a newline, the lines of the output are the
    strings passed to [print], one line each. *)
Lemma text_lines_stdout (printed : list string) :
  forallb newline_free printed = true ->
  text_lines (stdout_text printed) = printed.
Proof.
  induction printed as [|l printed IH]; simpl; intros H; [reflexivity|].
  apply andb_prop in H. destruct H as [Hl Hrest].
  change (String (ascii_of_nat 10) (stdout_text printed))
    with (String newline (stdout_text printed)).
  now rewrite (text_lines_line _ _ Hl), (IH Hrest).
Qed.

Lemma newline_free_spaces (k : nat) (l : string) :
  newline_free (spaces k +++ l) = newline_free l.
Proof. induction k as [|k IH]; simpl; [reflexivity | exact IH]. Qed.

Lemma newline_free_shift (k : nat) (printed : list string) :
  forallb newline_free (map (fun l => spaces k +++ l) printed)
  = forallb newline_free printed.
Proof.
  induction printed as [|l printed IH]; simpl; [reflexivity|].
  now rewrite newline_free_spaces, IH.
Qed.

End Layout.

(* ================================================================= *)
(** ** What [print_node] prints *)

Module Rendering.
Import Ast Layout.

(** *** Tag line, sub-headers and depth of the children *)

(** The reading of the depths under which every child is rendered two or
    four deeper than its parent. *)
Definition children_at_2_or_4 (n : node) (d : nat) : Prop :=
  Forall (fun ck => snd ck = d + 2 \/ snd ck = d + 4) (child_calls n d).

(** C1, as stated, fails on a dictionary: the key and the value of an entry
    are rendered six deeper than the [Dict] line, under the labels [Key:] and
    [Value:] at four.  Nor is four kept for dictionary entries and parameter
    defaults: the children of an assignment, under their sub-headers, are
    rendered at four as well. *)
Lemma dict_entry_rendered_at_6 :
  print_node (DictNode [(IntLiteralNode 1, IntLiteralNode 2)]) 0
  = ["Dict"; "  Items:";
     "    Key:"; "      IntLiteral(1)";
     "    Value:"; "      IntLiteral(2)"]
  /\ child_calls (DictNode [(IntLiteralNode 1, IntLiteralNode 2)]) 0
     = [(IntLiteralNode 1, 6); (IntLiteralNode 2, 6)]
  /\ ~ children_at_2_or_4 (DictNode [(IntLiteralNode 1, IntLiteralNode 2)]) 0
  /\ print_node (AssignmentNode (IdentifierNode "x") (IntLiteralNode 1)) 0
     = ["Assignment"; "  Target:"; "    Identifier(x)";
        "  Value:"; "    IntLiteral(1)"]
  /\ child_calls (AssignmentNode (IdentifierNode "x") (IntLiteralNode 1)) 0
     = [(IdentifierNode "x", 4); (IntLiteralNode 1, 4)].
Proof.
  split; [reflexivity|]. split; [reflexivity|]. split.
  - unfold children_at_2_or_4. simpl. intros H.
    inversion H as [|ck l Hck _]; subst. simpl in Hck. lia.
  - split; reflexivity.
Qed.

(** C1, amended: at every depth [d] a node prints its tag line behind
    exactly [d] blanks and then its outline two deeper; in the outline every
    sub-header is at [d + 2] and whatever stands under a sub-header or a
    label is two deeper than it, with at most two labels nested.  So a child
    is rendered at [d + 2] directly under the tag line (operands of a binary
    operation, the value of a return), at [d + 4] under a sub-header (the
    default of a parameter included), and at [d + 6] under the labels, at
    [d + 4], of a dictionary entry or a keyword argument. *)
Theorem print_node_layout (n : node) (d : nat) :
  print_node n d
  = (spaces d +++ tag n) :: flat_map (render (d + 2)) (outline_of n)
  /\ indent_of (spaces d +++ tag n) = d
  /\ child_calls n d = flat_map (calls (d + 2)) (outline_of n)
  /\ Forall (fun o => nesting o <= 2) (outline_of n)
  /\ Forall (fun ck => snd ck = d + 2 \/ snd ck = d + 4 \/ snd ck = d + 6)
            (child_calls n d).
Proof.
  split; [apply print_node_outline|].
  split; [rewrite indent_of_spaces, tag_not_blank; lia|].
  split; [apply child_calls_outline|].
  split; [apply outline_nesting | apply child_calls_depth].
Qed.

(** *** Which sub-headers a node prints *)

(** A node rendered at depth [d] prints the sub-header [h]: the line [h]
    behind [d + 2] blanks is among its lines. *)
Definition prints_header (n : node) (d : nat) (h : string) : Prop :=
  In (spaces (d + 2) +++ h) (print_node n d).

(** Finds a sub-header among the lines a node prints. *)
Ltac find_header :=
  unfold prints_header; simpl;
  repeat match goal with
    | |- _ \/ _ => first [left; reflexivity | right]
    | |- In _ (_ ++ _) => apply in_or_app; right
    | |- In _ (_ :: _) => simpl
    end.

(** Settles whether a guarded sub-header is printed, by the guarded list. *)
Ltac guarded_header l :=
  split;
  [ intros H; destruct l; [exfalso; unfold prints_header in H; header_cases H
                          | discriminate]
  | intros H; destruct l; [now destruct H | find_header] ].

(** C2, as stated, fails on empty groups: an empty list literal prints the
    single line [List], a call without arguments prints neither
    [Arguments:] nor [Keyword Arguments:], and an [if] without an else-body
    prints no [Else:]. *)
Lemma empty_groups_print_no_header :
  print_node (ListNode []) 0 = ["List"]
  /\ ~ prints_header (ListNode []) 0 "Elements:"
  /\ print_node (FunctionCallNode (IdentifierNode "f") [] []) 0
     = ["FunctionCall"; "  Callable:"; "    Identifier(f)"]
  /\ ~ prints_header (FunctionCallNode (IdentifierNode "f") [] []) 0 "Arguments:"
  /\ ~ prints_header (FunctionCallNode (IdentifierNode "f") [] []) 0
                     "Keyword Arguments:"
  /\ print_node (IfNode (BoolLiteralNode true) [PassNode] []) 0
     = ["If"; "  Condition:"; "    BoolLiteral(True)"; "  Then:"; "    Pass"]
  /\ ~ prints_header (IfNode (BoolLiteralNode true) [PassNode] []) 0 "Else:".
Proof.
  unfold prints_header; simpl.
  repeat split; try reflexivity; intros H;
    repeat (destruct H as [H|H]; try discriminate H); exact H.
Qed.

(** C2, amended: the sub-headers [Arguments:], [Keyword Arguments:],
    [Bases:], [Elements:], [Items:] and [Else:] are printed exactly when the
    list or mapping they introduce is not empty; every other sub-header
    ([Callable:], [Parameters:], [Body:], [Names:], [Condition:], [Then:],
    [Target:], [Value:], [Iterable:], [Index:]) is printed whenever its node
    is rendered, also over an empty list. *)
Theorem sub_headers_printed (d : nat) :
  (forall c args kw,
      prints_header (FunctionCallNode c args kw) d "Arguments:" <-> args <> [])
  /\ (forall c args kw,
      prints_header (FunctionCallNode c args kw) d "Keyword Arguments:"
      <-> kw <> [])
  /\ (forall name bases body,
      prints_header (ClassDefNode name bases body) d "Bases:" <-> bases <> [])
  /\ (forall elements,
      prints_header (ListNode elements) d "Elements:" <-> elements <> [])
  /\ (forall items,
      prints_header (DictNode items) d "Items:" <-> items <> [])
  /\ (forall c t e,
      prints_header (IfNode c t e) d "Else:" <-> e <> [])
  /\ (forall c args kw,
      prints_header (FunctionCallNode c args kw) d "Callable:")
  /\ (forall name ps body,
      prints_header (FunctionDefNode name ps body) d "Parameters:"
      /\ prints_header (FunctionDefNode name ps body) d "Body:")
  /\ (forall name bases body,
      prints_header (ClassDefNode name bases body) d "Body:")
  /\ (forall module imports,
      prints_header (FromImportNode module imports) d "Names:")
  /\ (forall c t e,
      prints_header (IfNode c t e) d "Condition:"
      /\ prints_header (IfNode c t e) d "Then:")
  /\ (forall c body,
      prints_header (WhileNode c body) d "Condition:"
      /\ prints_header (WhileNode c body) d "Body:")
  /\ (forall t i body,
      prints_header (ForNode t i body) d "Target:"
      /\ prints_header (ForNode t i body) d "Iterable:"
      /\ prints_header (ForNode t i body) d "Body:")
  /\ (forall t v,
      prints_header (AssignmentNode t v) d "Target:"
      /\ prints_header (AssignmentNode t v) d "Value:")
  /\ (forall v attr, prints_header (AttributeNode v attr) d "Value:")
  /\ (forall v i,
      prints_header (SubscriptNode v i) d "Value:"
      /\ prints_header (SubscriptNode v i) d "Index:").
Proof.
  repeat match goal with |- _ /\ _ => split end; intros.
  - guarded_header args.
  - guarded_header kw.
  - guarded_header bases.
  - guarded_header elements.
  - guarded_header items.
  - guarded_header e.
  - find_header.
  - split; find_header.
  - find_header.
  - find_header.
  - split; find_header.
  - split; find_header.
  - repeat split; find_header.
  - split; find_header.
  - find_header.
  - split; find_header.
Qed.

(** *** Order of the entries of a list field *)

(** What the entries of [l] print, one entry after the other in list order. *)
Definition in_order {A : Type} (f : A -> list string) (l : list A)
  : list string :=
  concat (map f l).

Lemma in_order_flat_map {A : Type} (f : A -> list string) (l : list A) :
  in_order f l = flat_map f l.
Proof. unfold in_order. symmetry. apply flat_map_concat_map. Qed.

Lemma in_order_split {A : Type} (f : A -> list string) (l1 l2 : list A) (x : A) :
  in_order f (l1 ++ x :: l2) = in_order f l1 ++ f x ++ in_order f l2.
Proof. rewrite !in_order_flat_map, flat_map_app. reflexivity. Qed.

Lemma falsy_list_empty {A : Type} (l : list A) : truthy_list l = false -> l = [].
Proof. destruct l; [reflexivity | discriminate]. Qed.

(** Brings a statement about [in_order] back to the loops of [print_node]. *)
Ltac by_loops :=
  intros; rewrite ?in_order_flat_map; simpl;
  repeat match goal with
    | |- context [truthy_list ?l] =>
        let E := fresh "E" in
        destruct (truthy_list l) eqn:E;
        [| apply falsy_list_empty in E; subst l]; simpl
    end;
  rewrite <- ?app_assoc; simpl; same_shape.

(** A printed string that starts with exactly [k] blanks. *)
Definition at_depth (k : nat) (line : string) : bool :=
  Nat.eqb (indent_of line) k.

(** Of what the entries of a field print at depth [k], the strings behind
    exactly [k] blanks are the tag lines of the entries, one each, in the
    order of the list. *)
Lemma field_tag_lines (field : list node) (k : nat) :
  filter (at_depth k) (in_order (fun entry => print_node entry k) field)
  = map (fun entry => spaces k +++ tag entry) field.
Proof.
  rewrite in_order_flat_map.
  induction field as [|entry field IH]; simpl; [reflexivity|].
  rewrite filter_app, IH. unfold at_depth at 1.
  now rewrite tag_line_filter.
Qed.

Lemma label_not_at_depth (a k : nat) (text : string) :
  a + indent_of text <> k -> at_depth k (spaces a +++ text) = false.
Proof.
  intros H. unfold at_depth. rewrite indent_of_spaces. now apply Nat.eqb_neq.
Qed.

Lemma label_at_depth (a : nat) (text : string) :
  indent_of text = 0 -> at_depth a (spaces a +++ text) = true.
Proof.
  intros H. unfold at_depth. rewrite indent_of_spaces, H, Nat.add_0_r.
  apply Nat.eqb_refl.
Qed.

(** The strings of a rendering at depth [k] that a shallower filter drops
    and a deeper one keeps only the tag line of. *)
Lemma rendering_at_depth (n : node) (k : nat) :
  filter (at_depth k) (print_node n k) = [spaces k +++ tag n].
Proof. apply tag_line_filter. Qed.

Lemma rendering_below_depth (n : node) (j k : nat) :
  j < k -> filter (at_depth j) (print_node n k) = [].
Proof.
  intros H. apply filter_none.
  eapply Forall_impl; [|apply (print_node_indented n k)].
  simpl. intros l Hl. unfold at_depth. apply Nat.eqb_neq. lia.
Qed.

(** The keys and values of the items of a dictionary: their tag lines,
    two deeper than the labels, in list order. *)
Lemma item_tag_lines (d : nat) (items : list (node * node)) :
  filter (at_depth (d + 6))
         (in_order (fun kv => (spaces (d + 4) +++ "Key:")
                              :: print_node (fst kv) (d + 6)
                              ++ (spaces (d + 4) +++ "Value:")
                              :: print_node (snd kv) (d + 6)) items)
  = flat_map (fun kv => [spaces (d + 6) +++ tag (fst kv);
                         spaces (d + 6) +++ tag (snd kv)]) items.
Proof.
  rewrite in_order_flat_map.
  induction items as [|[key value] items IH]; simpl; [reflexivity|].
  rewrite label_not_at_depth by (simpl; lia).
  rewrite !filter_app. simpl.
  rewrite label_not_at_depth by (simpl; lia).
  now rewrite !rendering_at_depth, IH.
Qed.

(** What a keyword argument prints: the label of its name, then the tag
    line of its value two deeper, then the rest of the value. *)
Lemma kw_entries_begin_with_tag (d : nat) (keyword_args : list (string * node)) :
  in_order (fun kv => (spaces (d + 4) +++ fst kv +++ ":")
                      :: print_node (snd kv) (d + 6)) keyword_args
  = in_order (fun kv => (spaces (d + 4) +++ fst kv +++ ":")
                        :: (spaces (d + 6) +++ tag (snd kv))
                        :: tl (print_node (snd kv) (d + 6))) keyword_args.
Proof.
  rewrite !in_order_flat_map. apply flat_map_ext. intros [key value]. simpl.
  now rewrite (print_node_outline value).
Qed.

(** When no name starts with a blank, the labels of the keyword arguments
    and the tag lines of their values, each in list order. *)
Lemma kw_tag_lines (d : nat) (keyword_args : list (string * node)) :
  Forall (fun kv => indent_of (fst kv +++ ":") = 0) keyword_args ->
  filter (at_depth (d + 4))
         (in_order (fun kv => (spaces (d + 4) +++ fst kv +++ ":")
                              :: print_node (snd kv) (d + 6)) keyword_args)
  = map (fun kv => spaces (d + 4) +++ fst kv +++ ":") keyword_args
  /\ filter (at_depth (d + 6))
            (in_order (fun kv => (spaces (d + 4) +++ fst kv +++ ":")
                                 :: print_node (snd kv) (d + 6)) keyword_args)
     = map (fun kv => spaces (d + 6) +++ tag (snd kv)) keyword_args.
Proof.
  rewrite !in_order_flat_map.
  induction 1 as [|[key value] kw Hkey _ [IH4 IH6]]; simpl in *;
    [split; reflexivity|].
  rewrite label_at_depth by exact Hkey.
  rewrite label_not_at_depth by (rewrite Hkey; lia).
  rewrite !filter_app, IH4, IH6, rendering_at_depth.
  rewrite rendering_below_depth by lia. split; reflexivity.
Qed.

(** C3: every list field is rendered entry by entry in the order of its
    list: the body of a function, class, loop or branch, the parameters, the
    bases, the elements of a list, the positional and the keyword arguments
    of a call (a mapping in insertion order), the items of a dictionary and
    the name/alias pairs of a from-import.  The block printed for a field is
    [in_order] of its list, in which what an entry prints comes after what
    all entries before it print and before what all entries after it print.
    No entry is left out, repeated or moved: of the strings printed for a
    field of nodes, those behind exactly the blanks of the entries' depth
    are the tag lines of the entries, one each, in list order; so are, two
    deeper than their labels, the tags of the keys and values of a
    dictionary's items and of the values of keyword arguments, each value
    under the label of its own name. *)
Theorem list_fields_rendered_in_order (d : nat) :
  (forall name parameters body,
      print_node (FunctionDefNode name parameters body) d
      = [spaces d +++ "FunctionDef(" +++ name +++ ")";
         spaces (d + 2) +++ "Parameters:"]
        ++ in_order (fun param => print_node param (d + 4)) parameters
        ++ [spaces (d + 2) +++ "Body:"]
        ++ in_order (fun stmt => print_node stmt (d + 4)) body)
  /\ (forall name bases body,
      print_node (ClassDefNode name bases body) d
      = [spaces d +++ "ClassDef(" +++ name +++ ")"]
        ++ (if truthy_list bases then [spaces (d + 2) +++ "Bases:"] else [])
        ++ in_order (fun base => print_node base (d + 4)) bases
        ++ [spaces (d + 2) +++ "Body:"]
        ++ in_order (fun stmt => print_node stmt (d + 4)) body)
  /\ (forall callable arguments keyword_args,
      print_node (FunctionCallNode callable arguments keyword_args) d
      = [spaces d +++ "FunctionCall"; spaces (d + 2) +++ "Callable:"]
        ++ print_node callable (d + 4)
        ++ (if truthy_list arguments
            then [spaces (d + 2) +++ "Arguments:"] else [])
        ++ in_order (fun arg => print_node arg (d + 4)) arguments
        ++ (if truthy_list keyword_args
            then [spaces (d + 2) +++ "Keyword Arguments:"] else [])
        ++ in_order (fun kv => (spaces (d + 4) +++ fst kv +++ ":")
                               :: print_node (snd kv) (d + 6)) keyword_args)
  /\ (forall elements,
      print_node (ListNode elements) d
      = [spaces d +++ "List"]
        ++ (if truthy_list elements
            then [spaces (d + 2) +++ "Elements:"] else [])
        ++ in_order (fun element => print_node element (d + 4)) elements)
  /\ (forall items,
      print_node (DictNode items) d
      = [spaces d +++ "Dict"]
        ++ (if truthy_list items then [spaces (d + 2) +++ "Items:"] else [])
        ++ in_order (fun kv => (spaces (d + 4) +++ "Key:")
                               :: print_node (fst kv) (d + 6)
                               ++ (spaces (d + 4) +++ "Value:")
                               :: print_node (snd kv) (d + 6)) items)
  /\ (forall module imports,
      print_node (FromImportNode module imports) d
      = [spaces d +++ "FromImport(" +++ module +++ ")";
         spaces (d + 2) +++ "Names:"]
        ++ in_order (fun na => [spaces (d + 4)
                                +++ fst na +++ alias_suffix (snd na)]) imports)
  /\ (forall condition then_body else_body,
      print_node (IfNode condition then_body else_body) d
      = [spaces d +++ "If"; spaces (d + 2) +++ "Condition:"]
        ++ print_node condition (d + 4)
        ++ [spaces (d + 2) +++ "Then:"]
        ++ in_order (fun stmt => print_node stmt (d + 4)) then_body
        ++ (if truthy_list else_body then [spaces (d + 2) +++ "Else:"] else [])
        ++ in_order (fun stmt => print_node stmt (d + 4)) else_body)
  /\ (forall condition body,
      print_node (WhileNode condition body) d
      = [spaces d +++ "While"; spaces (d + 2) +++ "Condition:"]
        ++ print_node condition (d + 4)
        ++ [spaces (d + 2) +++ "Body:"]
        ++ in_order (fun stmt => print_node stmt (d + 4)) body)
  /\ (forall target iterable body,
      print_node (ForNode target iterable body) d
      = [spaces d +++ "For"; spaces (d + 2) +++ "Target:"]
        ++ print_node target (d + 4)
        ++ [spaces (d + 2) +++ "Iterable:"]
        ++ print_node iterable (d + 4)
        ++ [spaces (d + 2) +++ "Body:"]
        ++ in_order (fun stmt => print_node stmt (d + 4)) body)
  /\ (forall (A : Type) (f : A -> list string) (l1 l2 : list A) (x : A),
      in_order f (l1 ++ x :: l2) = in_order f l1 ++ f x ++ in_order f l2)
  /\ (forall (field : list node) (k : nat),
      filter (at_depth k) (in_order (fun entry => print_node entry k) field)
      = map (fun entry => spaces k +++ tag entry) field)
  /\ (forall items,
      filter (at_depth (d + 6))
             (in_order (fun kv => (spaces (d + 4) +++ "Key:")
                                  :: print_node (fst kv) (d + 6)
                                  ++ (spaces (d + 4) +++ "Value:")
                                  :: print_node (snd kv) (d + 6)) items)
      = flat_map (fun kv => [spaces (d + 6) +++ tag (fst kv);
                             spaces (d + 6) +++ tag (snd kv)]) items)
  /\ (forall keyword_args : list (string * node),
      in_order (fun kv => (spaces (d + 4) +++ fst kv +++ ":")
                          :: print_node (snd kv) (d + 6)) keyword_args
      = in_order (fun kv => (spaces (d + 4) +++ fst kv +++ ":")
                            :: (spaces (d + 6) +++ tag (snd kv))
                            :: tl (print_node (snd kv) (d + 6))) keyword_args)
  /\ (forall keyword_args : list (string * node),
      Forall (fun kv => indent_of (fst kv +++ ":") = 0) keyword_args ->
      filter (at_depth (d + 4))
             (in_order (fun kv => (spaces (d + 4) +++ fst kv +++ ":")
                                  :: print_node (snd kv) (d + 6)) keyword_args)
      = map (fun kv => spaces (d + 4) +++ fst kv +++ ":") keyword_args
      /\ filter (at_depth (d + 6))
                (in_order (fun kv => (spaces (d + 4) +++ fst kv +++ ":")
                                     :: print_node (snd kv) (d + 6))
                          keyword_args)
         = map (fun kv => spaces (d + 6) +++ tag (snd kv)) keyword_args).
Proof.
  repeat match goal with |- _ /\ _ => split end;
    try exact (fun A f l1 l2 x => in_order_split f l1 l2 x);
    try exact field_tag_lines;
    try exact (item_tag_lines d);
    try exact (kw_entries_begin_with_tag d);
    try exact (kw_tag_lines d);
    by_loops.
Qed.

(** *** Aliases of imports *)

Lemma alias_suffix_as (alias : option string) (a : string) :
  alias_suffix alias = " as " +++ a <-> alias = Some a /\ a <> "".
Proof.
  unfold alias_suffix. split.
  - destruct alias as [[|c s]|]; simpl; try discriminate.
    intros H. injection H as <-. split; [reflexivity | discriminate].
  - intros [-> Ha]. destruct a as [|c s]; [now destruct Ha | reflexivity].
Qed.

Lemma alias_suffix_none (alias : option string) :
  alias_suffix alias = "" <-> alias = None \/ alias = Some "".
Proof.
  unfold alias_suffix. split.
  - destruct alias as [[|c s]|]; simpl; try discriminate; auto.
  - intros [-> | ->]; reflexivity.
Qed.

(** C10: an import prints its module followed by [" as " + alias] exactly
    when the alias is a non-empty string, and by nothing when the alias is
    [None] or the empty string, so the two are rendered alike; each entry of
    a from-import does the same after its name. *)
Theorem alias_printed_iff_non_empty (d : nat) :
  (forall module alias,
      print_node (ImportNode module alias) d
      = [spaces d +++ "Import(" +++ module +++ alias_suffix alias +++ ")"])
  /\ (forall module imports,
      print_node (FromImportNode module imports) d
      = [spaces d +++ "FromImport(" +++ module +++ ")";
         spaces (d + 2) +++ "Names:"]
        ++ map (fun na => spaces (d + 4) +++ fst na +++ alias_suffix (snd na))
               imports)
  /\ (forall alias a,
      alias_suffix alias = " as " +++ a <-> alias = Some a /\ a <> "")
  /\ (forall alias, alias_suffix alias = "" <-> alias = None \/ alias = Some "")
  /\ (forall module,
      print_node (ImportNode module None) d
      = print_node (ImportNode module (Some "")) d)
  /\ (forall module name,
      print_node (FromImportNode module [(name, None)]) d
      = print_node (FromImportNode module [(name, Some "")]) d).
Proof.
  repeat match goal with |- _ /\ _ => split end; intros;
    try reflexivity.
  - simpl. unfold alias_suffix. destruct (truthy_str alias).
    + now rewrite !append_assoc.
    + reflexivity.
  - simpl. rewrite <- flat_map_singleton. same_shape.
  - apply alias_suffix_as.
  - apply alias_suffix_none.
Qed.

(** *** Rendering forgets part of the tree *)

(** C7: rendering is not injective.  An import of the module named
    ["m as n"] without alias and an import of ["m"] under the alias ["n"]
    differ, and at every depth both print the one line [Import(m as n)]: the
    same lines, hence the same text on standard output. *)
Theorem print_node_not_injective :
  ImportNode "m as n" (Some "") <> ImportNode "m" (Some "n")
  /\ (forall d,
      print_node (ImportNode "m as n" (Some "")) d
      = [spaces d +++ "Import(m as n)"]
      /\ print_node (ImportNode "m" (Some "n")) d
         = [spaces d +++ "Import(m as n)"]
      /\ stdout_text (print_node (ImportNode "m as n" (Some "")) d)
         = stdout_text (print_node (ImportNode "m" (Some "n")) d)).
Proof.
  split; [discriminate|]. intros d. repeat split; reflexivity.
Qed.

(** *** Collections of a constructed node *)

(** C8: each of the nine constructors that takes a collection with default
    [None] stores a list (or the items of a mapping) in the field: the
    empty one when the argument is [None] or omitted, the argument's entries
    otherwise.  With no collection given, all collection fields are empty. *)
Theorem constructors_store_collections :
  (forall callable arguments keyword_args,
      FunctionCallNode__init__ callable arguments keyword_args
      = FunctionCallNode callable (collection_of arguments)
                         (collection_of keyword_args))
  /\ (forall name parameters body,
      FunctionDefNode__init__ name parameters body
      = FunctionDefNode name (collection_of parameters) (collection_of body))
  /\ (forall name bases body,
      ClassDefNode__init__ name bases body
      = ClassDefNode name (collection_of bases) (collection_of body))
  /\ (forall module imports,
      FromImportNode__init__ module imports
      = FromImportNode module (collection_of imports))
  /\ (forall condition then_body else_body,
      IfNode__init__ condition then_body else_body
      = IfNode condition (collection_of then_body) (collection_of else_body))
  /\ (forall condition body,
      WhileNode__init__ condition body
      = WhileNode condition (collection_of body))
  /\ (forall target iterable body,
      ForNode__init__ target iterable body
      = ForNode target iterable (collection_of body))
  /\ (forall elements,
      ListNode__init__ elements = ListNode (collection_of elements))
  /\ (forall items, DictNode__init__ items = DictNode (collection_of items))
  /\ (forall callable name module condition target iterable,
      FunctionCallNode__init__ callable None None
      = FunctionCallNode callable [] []
      /\ FunctionDefNode__init__ name None None = FunctionDefNode name [] []
      /\ ClassDefNode__init__ name None None = ClassDefNode name [] []
      /\ FromImportNode__init__ module None = FromImportNode module []
      /\ IfNode__init__ condition None None = IfNode condition [] []
      /\ WhileNode__init__ condition None = WhileNode condition []
      /\ ForNode__init__ target iterable None = ForNode target iterable []
      /\ ListNode__init__ None = ListNode []
      /\ DictNode__init__ None = DictNode []).
Proof.
  unfold FunctionCallNode__init__, FunctionDefNode__init__,
    ClassDefNode__init__, FromImportNode__init__, IfNode__init__,
    WhileNode__init__, ForNode__init__, ListNode__init__, DictNode__init__.
  repeat match goal with |- _ /\ _ => split end; intros;
    repeat match goal with |- _ /\ _ => split end;
    rewrite ?or_empty_collection; reflexivity.
Qed.

End Rendering.

(* ================================================================= *)
(** ** The renderer over an object store *)

Module Heap.
Import Ast.

(** *** Objects, program state and effects *)

(** The identity of an object: its place in the store. *)
Definition ref : Type := nat.

(** An instance of a class of [ast_nodes.py].  Its fields hold references
    where the tree of [Ast.node] holds subtrees.  [obj_ASTNode] is an
    instance of the base class itself. *)
Inductive object : Type :=
  | obj_ASTNode
  | obj_IntLiteralNode (value : Z)
  | obj_FloatLiteralNode (value : pyfloat)
  | obj_StringLiteralNode (value : string) (is_f_string : bool)
  | obj_BoolLiteralNode (value : bool)
  | obj_NoneLiteralNode
  | obj_IdentifierNode (name : string)
  | obj_BinaryOpNode (op : string) (left right : ref)
  | obj_AssignmentNode (target value : ref)
  | obj_FunctionCallNode (callable : ref) (arguments : list ref)
                         (keyword_args : list (string * ref))
  | obj_ParameterNode (name : string) (default_value : option ref)
                      (is_keyword_only : bool)
  | obj_FunctionDefNode (name : string) (parameters : list ref)
                        (body : list ref)
  | obj_ClassDefNode (name : string) (bases : list ref) (body : list ref)
  | obj_ReturnNode (value : option ref)
  | obj_ImportNode (module : string) (alias : option string)
  | obj_FromImportNode (module : string)
                       (imports : list (string * option string))
  | obj_IfNode (condition : ref) (then_body else_body : list ref)
  | obj_WhileNode (condition : ref) (body : list ref)
  | obj_ForNode (target iterable : ref) (body : list ref)
  | obj_AttributeNode (value : ref) (attr : string)
  | obj_ListNode (elements : list ref)
  | obj_DictNode (items : list (ref * ref))
  | obj_SubscriptNode (value index : ref)
  | obj_PassNode
  | obj_BreakNode
  | obj_ContinueNode.

(** The state of the program: the objects, by reference, and the lines
    written to standard output so far. *)
Record state : Type := State { heap : list object; stdout : list string }.

Inductive exception : Type :=
  | NotImplementedError (message : string).

(** How a call ends.  [Stuck] is a reference to no object, which Python
    cannot build; [OutOfFuel] is the recursion bound of the model. *)
Inductive outcome (A : Type) : Type :=
  | Returned (a : A)
  | Raised (e : exception)
  | Stuck
  | OutOfFuel.
Arguments Returned {A} a.
Arguments Raised {A} e.
Arguments Stuck {A}.
Arguments OutOfFuel {A}.

(** A computation: from a state to how it ends and the state it leaves. *)
Definition M (A : Type) : Type := state -> outcome A * state.

Definition ret {A : Type} (a : A) : M A := fun s => (Returned a, s).

Definition bind {A B : Type} (m : M A) (k : A -> M B) : M B :=
  fun s =>
    match m s with
    | (Returned a, s') => k a s'
    | (Raised e, s') => (Raised e, s')
    | (Stuck, s') => (Stuck, s')
    | (OutOfFuel, s') => (OutOfFuel, s')
    end.

Notation "x <- c1 ;; c2" := (bind c1 (fun x => c2))
  (at level 61, c1 at next level, right associativity).
Notation "c1 ;; c2" := (bind c1 (fun _ => c2))
  (at level 61, right associativity).

(** [print(line)]. *)
Definition print (line : string) : M unit :=
  fun s => (Returned tt, {| heap := heap s; stdout := stdout s ++ [line] |}).

(** [raise e]. *)
Definition raise {A : Type} (e : exception) : M A := fun s => (Raised e, s).

(** Reading the object a reference points to. *)
Definition deref (r : ref) : M object :=
  fun s =>
    match nth_error (heap s) r with
    | Some o => (Returned o, s)
    | None => (Stuck, s)
    end.

Definition out_of_fuel {A : Type} : M A := fun s => (OutOfFuel, s).

(** [for x in l: body(x)]. *)
Fixpoint for_each {A : Type} (l : list A) (body : A -> M unit) : M unit :=
  match l with
  | [] => ret tt
  | x :: l' => body x ;; for_each l' body
  end.

(** *** [print_node] on objects *)

(** [self.print_node(indent)], dispatched on the class of the object [self]
    points to.  [fuel] bounds the depth of the recursion. *)
Fixpoint print_obj (fuel : nat) (self : ref) (indent : nat) : M unit :=
  match fuel with
  | O => out_of_fuel
  | S fuel =>
    o <- deref self ;;
    match o with
    | obj_ASTNode =>
        raise (NotImplementedError "Each AST node must implement print_node")
    | obj_IntLiteralNode value =>
        print (spaces indent +++ "IntLiteral(" +++ str_int value +++ ")")
    | obj_FloatLiteralNode value =>
        print (spaces indent +++ "FloatLiteral(" +++ str_float value +++ ")")
    | obj_StringLiteralNode value is_f_string =>
        let node_type := if is_f_string then "FString" else "StringLiteral" in
        print (spaces indent +++ node_type
               +++ "(" +++ dquote +++ value +++ dquote +++ ")")
    | obj_BoolLiteralNode value =>
        print (spaces indent +++ "BoolLiteral(" +++ str_bool value +++ ")")
    | obj_NoneLiteralNode =>
        print (spaces indent +++ "None")
    | obj_IdentifierNode name =>
        print (spaces indent +++ "Identifier(" +++ name +++ ")")
    | obj_BinaryOpNode op lhs rhs =>
        print (spaces indent +++ "BinaryOp(" +++ op +++ ")") ;;
        print_obj fuel lhs (indent + 2) ;;
        print_obj fuel rhs (indent + 2)
    | obj_AssignmentNode target value =>
        print (spaces indent +++ "Assignment") ;;
        print (spaces (indent + 2) +++ "Target:") ;;
        print_obj fuel target (indent + 4) ;;
        print (spaces (indent + 2) +++ "Value:") ;;
        print_obj fuel value (indent + 4)
    | obj_FunctionCallNode callable arguments keyword_args =>
        print (spaces indent +++ "FunctionCall") ;;
        print (spaces (indent + 2) +++ "Callable:") ;;
        print_obj fuel callable (indent + 4) ;;
        (if truthy_list arguments then
           print (spaces (indent + 2) +++ "Arguments:") ;;
           for_each arguments (fun arg => print_obj fuel arg (indent + 4))
         else ret tt) ;;
        (if truthy_list keyword_args then
           print (spaces (indent + 2) +++ "Keyword Arguments:") ;;
           for_each keyword_args (fun kv =>
             match kv with
             | (key, value) =>
                 print (spaces (indent + 4) +++ key +++ ":") ;;
                 print_obj fuel value (indent + 6)
             end)
         else ret tt)
    | obj_ParameterNode name default_value is_keyword_only =>
        let param_info :=
          if is_keyword_only then name +++ ", keyword-only" else name in
        print (spaces indent +++ "Parameter(" +++ param_info +++ ")") ;;
        match default_value with
        | Some dv =>
            print (spaces (indent + 2) +++ "Default Value:") ;;
            print_obj fuel dv (indent + 4)
        | None => ret tt
        end
    | obj_FunctionDefNode name parameters body =>
        print (spaces indent +++ "FunctionDef(" +++ name +++ ")") ;;
        print (spaces (indent + 2) +++ "Parameters:") ;;
        for_each parameters (fun param => print_obj fuel param (indent + 4)) ;;
        print (spaces (indent + 2) +++ "Body:") ;;
        for_each body (fun stmt => print_obj fuel stmt (indent + 4))
    | obj_ClassDefNode name bases body =>
        print (spaces indent +++ "ClassDef(" +++ name +++ ")") ;;
        (if truthy_list bases then
           print (spaces (indent + 2) +++ "Bases:") ;;
           for_each bases (fun base => print_obj fuel base (indent + 4))
         else ret tt) ;;
        print (spaces (indent + 2) +++ "Body:") ;;
        for_each body (fun stmt => print_obj fuel stmt (indent + 4))
    | obj_ReturnNode value =>
        print (spaces indent +++ "Return") ;;
        match value with
        | Some v => print_obj fuel v (indent + 2)
        | None => ret tt
        end
    | obj_ImportNode module alias =>
        let import_info :=
          if truthy_str alias
          then module +++ " as "
               +++ match alias with Some a => a | None => "" end
          else module in
        print (spaces indent +++ "Import(" +++ import_info +++ ")")
    | obj_FromImportNode module imports =>
        print (spaces indent +++ "FromImport(" +++ module +++ ")") ;;
        print (spaces (indent + 2) +++ "Names:") ;;
        for_each imports (fun na =>
          match na with
          | (name, alias) =>
              let import_info :=
                if truthy_str alias
                then name +++ " as "
                     +++ match alias with Some a => a | None => "" end
                else name in
              print (spaces (indent + 4) +++ import_info)
          end)
    | obj_IfNode condition then_body else_body =>
        print (spaces indent +++ "If") ;;
        print (spaces (indent + 2) +++ "Condition:") ;;
        print_obj fuel condition (indent + 4) ;;
        print (spaces (indent + 2) +++ "Then:") ;;
        for_each then_body (fun stmt => print_obj fuel stmt (indent + 4)) ;;
        (if truthy_list else_body then
           print (spaces (indent + 2) +++ "Else:") ;;
           for_each else_body (fun stmt => print_obj fuel stmt (indent + 4))
         else ret tt)
    | obj_WhileNode condition body =>
        print (spaces indent +++ "While") ;;
        print (spaces (indent + 2) +++ "Condition:") ;;
        print_obj fuel condition (indent + 4) ;;
        print (spaces (indent + 2) +++ "Body:") ;;
        for_each body (fun stmt => print_obj fuel stmt (indent + 4))
    | obj_ForNode target iterable body =>
        print (spaces indent +++ "For") ;;
        print (spaces (indent + 2) +++ "Target:") ;;
        print_obj fuel target (indent + 4) ;;
        print (spaces (indent + 2) +++ "Iterable:") ;;
        print_obj fuel iterable (indent + 4) ;;
        print (spaces (indent + 2) +++ "Body:") ;;
        for_each body (fun stmt => print_obj fuel stmt (indent + 4))
    | obj_AttributeNode value attr =>
        print (spaces indent +++ "Attribute(" +++ attr +++ ")") ;;
        print (spaces (indent + 2) +++ "Value:") ;;
        print_obj fuel value (indent + 4)
    | obj_ListNode elements =>
        print (spaces indent +++ "List") ;;
        (if truthy_list elements then
           print (spaces (indent + 2) +++ "Elements:") ;;
           for_each elements
             (fun element => print_obj fuel element (indent + 4))
         else ret tt)
    | obj_DictNode items =>
        print (spaces indent +++ "Dict") ;;
        (if truthy_list items then
           print (spaces (indent + 2) +++ "Items:") ;;
           for_each items (fun kv =>
             match kv with
             | (key, value) =>
                 print (spaces (indent + 4) +++ "Key:") ;;
                 print_obj fuel key (indent + 6) ;;
                 print (spaces (indent + 4) +++ "Value:") ;;
                 print_obj fuel value (indent + 6)
             end)
         else ret tt)
    | obj_SubscriptNode value index =>
        print (spaces indent +++ "Subscript") ;;
        print (spaces (indent + 2) +++ "Value:") ;;
        print_obj fuel value (indent + 4) ;;
        print (spaces (indent + 2) +++ "Index:") ;;
        print_obj fuel index (indent + 4)
    | obj_PassNode => print (spaces indent +++ "Pass")
    | obj_BreakNode => print (spaces indent +++ "Break")
    | obj_ContinueNode => print (spaces indent +++ "Continue")
    end
  end.

(** *** The tree an object stands for *)

Definition obind {A B : Type} (o : option A) (k : A -> option B) : option B :=
  match o with
  | Some a => k a
  | None => None
  end.

Notation "'load' x <- o ; k" := (obind o (fun x => k))
  (at level 10, x name, o at level 100, k at level 200).

(** All of [f x] for [x] in [l], when each is defined. *)
Fixpoint map_option {A B : Type} (f : A -> option B) (l : list A)
  : option (list B) :=
  match l with
  | [] => Some []
  | x :: l' =>
      load y <- f x;
      load ys <- map_option f l';
      Some (y :: ys)
  end.

(** The tree of concrete nodes that the object at [self] and the objects it
    reaches stand for, read off the store to depth [fuel]; [None] when an
    instance of the base class or a reference to nothing is met, or when the
    objects nest deeper than [fuel]. *)
Fixpoint tree_at (fuel : nat) (h : list object) (self : ref) : option node :=
  match fuel with
  | O => None
  | S fuel =>
    load o <- nth_error h self;
    let sub := tree_at fuel h in
    let subs := map_option (tree_at fuel h) in
    match o with
    | obj_ASTNode => None
    | obj_IntLiteralNode value => Some (IntLiteralNode value)
    | obj_FloatLiteralNode value => Some (FloatLiteralNode value)
    | obj_StringLiteralNode value f => Some (StringLiteralNode value f)
    | obj_BoolLiteralNode value => Some (BoolLiteralNode value)
    | obj_NoneLiteralNode => Some NoneLiteralNode
    | obj_IdentifierNode name => Some (IdentifierNode name)
    | obj_BinaryOpNode op lhs rhs =>
        load l <- sub lhs; load r <- sub rhs; Some (BinaryOpNode op l r)
    | obj_AssignmentNode target value =>
        load t <- sub target; load v <- sub value; Some (AssignmentNode t v)
    | obj_FunctionCallNode callable arguments keyword_args =>
        load c <- sub callable;
        load args <- subs arguments;
        load kw <- map_option (fun kv =>
                     match kv with
                     | (key, value) => load v <- sub value; Some (key, v)
                     end) keyword_args;
        Some (FunctionCallNode c args kw)
    | obj_ParameterNode name default_value kwonly =>
        match default_value with
        | Some dv =>
            load d <- sub dv; Some (ParameterNode name (Some d) kwonly)
        | None => Some (ParameterNode name None kwonly)
        end
    | obj_FunctionDefNode name parameters body =>
        load ps <- subs parameters;
        load b <- subs body;
        Some (FunctionDefNode name ps b)
    | obj_ClassDefNode name bases body =>
        load bs <- subs bases;
        load b <- subs body;
        Some (ClassDefNode name bs b)
    | obj_ReturnNode value =>
        match value with
        | Some v => load t <- sub v; Some (ReturnNode (Some t))
        | None => Some (ReturnNode None)
        end
    | obj_ImportNode module alias => Some (ImportNode module alias)
    | obj_FromImportNode module imports => Some (FromImportNode module imports)
    | obj_IfNode condition then_body else_body =>
        load c <- sub condition;
        load t <- subs then_body;
        load e <- subs else_body;
        Some (IfNode c t e)
    | obj_WhileNode condition body =>
        load c <- sub condition; load b <- subs body; Some (WhileNode c b)
    | obj_ForNode target iterable body =>
        load t <- sub target;
        load i <- sub iterable;
        load b <- subs body;
        Some (ForNode t i b)
    | obj_AttributeNode value attr =>
        load v <- sub value; Some (AttributeNode v attr)
    | obj_ListNode elements =>
        load es <- subs elements; Some (ListNode es)
    | obj_DictNode items =>
        load kvs <- map_option (fun kv =>
                      match kv with
                      | (key, value) =>
                          load k <- sub key; load v <- sub value; Some (k, v)
                      end) items;
        Some (DictNode kvs)
    | obj_SubscriptNode value index =>
        load v <- sub value; load i <- sub index; Some (SubscriptNode v i)
    | obj_PassNode => Some PassNode
    | obj_BreakNode => Some BreakNode
    | obj_ContinueNode => Some ContinueNode
    end
  end.

(** *** Runs that depend on the store alone *)

(** From every state whose store is [h], [m] ends as [o], leaves the store
    as it is and adds the lines [out] to standard output. *)
Definition runs {A : Type} (m : M A) (h : list object)
           (o : outcome A) (out : list string) : Prop :=
  forall s, heap s = h ->
            m s = (o, {| heap := h; stdout := stdout s ++ out |}).

Lemma runs_ret {A : Type} (a : A) (h : list object) :
  runs (ret a) h (Returned a) [].
Proof.
  intros [h' out] E. simpl in E. subst h'. unfold ret. simpl.
  now rewrite app_nil_r.
Qed.

Lemma runs_print (line : string) (h : list object) :
  runs (print line) h (Returned tt) [line].
Proof. intros s E. unfold print. now rewrite E. Qed.

Lemma runs_raise {A : Type} (e : exception) (h : list object) :
  runs (@raise A e) h (Raised e) [].
Proof.
  intros [h' out] E. simpl in E. subst h'. unfold raise. simpl.
  now rewrite app_nil_r.
Qed.

Lemma runs_out_of_fuel {A : Type} (h : list object) :
  runs (@out_of_fuel A) h OutOfFuel [].
Proof.
  intros [h' out] E. simpl in E. subst h'. unfold out_of_fuel. simpl.
  now rewrite app_nil_r.
Qed.

Lemma runs_bind {A B : Type} (m : M A) (k : A -> M B) (h : list object)
      (a : A) (o : outcome B) (out1 out2 : list string) :
  runs m h (Returned a) out1 -> runs (k a) h o out2 ->
  runs (bind m k) h o (out1 ++ out2).
Proof.
  intros Hm Hk s E. unfold bind. rewrite (Hm s E).
  rewrite (Hk {| heap := h; stdout := stdout s ++ out1 |} eq_refl). simpl.
  now rewrite app_assoc.
Qed.

Lemma runs_seq (m1 m2 : M unit) (h : list object)
      (o : outcome unit) (out1 out2 : list string) :
  runs m1 h (Returned tt) out1 -> runs m2 h o out2 ->
  runs (m1 ;; m2) h o (out1 ++ out2).
Proof. intros H1 H2. exact (runs_bind m1 (fun _ => m2) h tt o _ _ H1 H2). Qed.

Lemma runs_deref {A : Type} (r : ref) (k : object -> M A) (h : list object)
      (x : object) (o : outcome A) (out : list string) :
  nth_error h r = Some x -> runs (k x) h o out -> runs (bind (deref r) k) h o out.
Proof.
  intros E Hk s Es. unfold bind, deref. rewrite Es, E. exact (Hk s Es).
Qed.

Lemma runs_deref_stuck {A : Type} (r : ref) (k : object -> M A)
      (h : list object) :
  nth_error h r = None -> runs (bind (deref r) k) h Stuck [].
Proof.
  intros E [h' out] Es. simpl in Es. subst h'. unfold bind, deref. simpl.
  rewrite E. now rewrite app_nil_r.
Qed.

(** An outcome other than a raised exception. *)
Definition not_raised {A : Type} (o : outcome A) : Prop :=
  match o with
  | Raised _ => False
  | _ => True
  end.

(** [m] is a function of the store: how it ends and what it prints are
    the same from every state with the store [h], which it leaves as it is.
    When [strict], moreover, it does not end in an exception. *)
Definition store_only {A : Type} (strict : bool) (m : M A) (h : list object)
  : Prop :=
  exists o out, runs m h o out /\ (strict = true -> not_raised o).

Lemma store_only_ret {A : Type} (strict : bool) (a : A) (h : list object) :
  store_only strict (ret a) h.
Proof. eexists _, _. split; [apply runs_ret | intros _; exact I]. Qed.

Lemma store_only_print (strict : bool) (line : string) (h : list object) :
  store_only strict (print line) h.
Proof. eexists _, _. split; [apply runs_print | intros _; exact I]. Qed.

Lemma store_only_raise {A : Type} (e : exception) (h : list object) :
  store_only false (@raise A e) h.
Proof. eexists _, _. split; [apply runs_raise | discriminate]. Qed.

Lemma store_only_bind {A B : Type} (strict : bool)
      (m : M A) (k : A -> M B) (h : list object) :
  store_only strict m h -> (forall a, store_only strict (k a) h) ->
  store_only strict (bind m k) h.
Proof.
  intros (o & out & Hm & Ho) Hk. destruct o as [a|e| |].
  - destruct (Hk a) as (o' & out' & Hka & Ho').
    eexists _, _. split; [eapply runs_bind; eassumption | exact Ho'].
  - exists (Raised e), out. split; [|exact Ho].
    intros s E. unfold bind. now rewrite (Hm s E).
  - exists Stuck, out. split; [|intros _; exact I].
    intros s E. unfold bind. now rewrite (Hm s E).
  - exists OutOfFuel, out. split; [|intros _; exact I].
    intros s E. unfold bind. now rewrite (Hm s E).
Qed.

Lemma store_only_deref {A : Type} (strict : bool) (r : ref)
      (k : object -> M A) (h : list object) :
  (forall x, nth_error h r = Some x -> store_only strict (k x) h) ->
  store_only strict (bind (deref r) k) h.
Proof.
  intros Hk. destruct (nth_error h r) as [x|] eqn:E.
  - destruct (Hk x eq_refl) as (o & out & Hx & Ho). exists o, out.
    split; [eapply runs_deref; eassumption | exact Ho].
  - eexists _, _. split; [now apply runs_deref_stuck | intros _; exact I].
Qed.

Lemma store_only_for_each {A : Type} (strict : bool) (l : list A)
      (body : A -> M unit) (h : list object) :
  (forall x, store_only strict (body x) h) ->
  store_only strict (for_each l body) h.
Proof.
  intros Hb. induction l as [|x l IH]; simpl.
  - apply store_only_ret.
  - apply store_only_bind; [apply Hb | intros _; exact IH].
Qed.

(** No object of the store is an instance of the base class itself. *)
Definition concrete_store (h : list object) : Prop :=
  Forall (fun x => x <> obj_ASTNode) h.

(** What a call of [print_node] does is a function of the store, the
    object and the depth, and the store is left as it is; over a store of
    instances of the concrete classes it raises nothing. *)
Lemma print_obj_store_only (strict : bool) (fuel : nat) :
  forall self indent h,
    (strict = true -> concrete_store h) ->
    store_only strict (print_obj fuel self indent) h.
Proof.
  induction fuel as [|fuel IH]; intros self indent h Hh; cbn [print_obj].
  - eexists _, _. split; [apply runs_out_of_fuel | intros _; exact I].
  - apply store_only_deref. intros x Ex.
    assert (strict = true -> x <> obj_ASTNode) as Hx.
    { intros Hs. specialize (Hh Hs). unfold concrete_store in Hh.
      rewrite Forall_forall in Hh. apply Hh. eapply nth_error_In, Ex. }
    destruct x;
      repeat match goal with
        | |- store_only _ (ret _) _ => apply store_only_ret
        | |- store_only _ (print _) _ => apply store_only_print
        | |- store_only _ (bind _ _) _ => apply store_only_bind; [|intros _]
        | |- store_only _ (if ?b then _ else _) _ => destruct b
        | |- store_only _ (match ?o with Some _ => _ | None => _ end) _ =>
            destruct o
        | |- store_only _ (match ?p with (_, _) => _ end) _ => destruct p
        | |- store_only _ (for_each _ _) _ =>
            apply store_only_for_each; intros
        | |- store_only _ (print_obj _ _ _) _ => now apply IH
        end.
    destruct strict; [now destruct Hx | apply store_only_raise].
Qed.

(** *** Agreement with [Ast.print_node] *)

Lemma map_option_truthy {A B : Type} (f : A -> option B)
      (l : list A) (l' : list B) :
  map_option f l = Some l' -> truthy_list l = truthy_list l'.
Proof.
  destruct l as [|x l]; simpl.
  - intros H. now injection H as <-.
  - destruct (f x); simpl; [|discriminate].
    destruct (map_option f l); simpl; [|discriminate].
    intros H. now injection H as <-.
Qed.

Lemma runs_for_each {A B : Type} (f : A -> option B) (body : A -> M unit)
      (text : B -> list string) (h : list object) :
  (forall x y, f x = Some y -> runs (body x) h (Returned tt) (text y)) ->
  forall l l', map_option f l = Some l' ->
               runs (for_each l body) h (Returned tt) (flat_map text l').
Proof.
  intros Hb. induction l as [|x l IH]; simpl; intros l' H.
  - injection H as <-. apply runs_ret.
  - destruct (f x) as [y|] eqn:Ex; simpl in H; [|discriminate].
    destruct (map_option f l) as [ys|] eqn:El; simpl in H; [|discriminate].
    injection H as <-. simpl. apply runs_seq; [now apply Hb | now apply IH].
Qed.

Lemma map_option_some {A : Type} (l : list A) : map_option (@Some A) l = Some l.
Proof. induction l as [|x l IH]; simpl; [reflexivity | now rewrite IH]. Qed.

Lemma runs_guarded {A B : Type} (l : list A) (l' : list B) (m : M unit)
      (h : list object) (out : list string) :
  truthy_list l = truthy_list l' ->
  runs m h (Returned tt) out ->
  runs (if truthy_list l then m else ret tt) h (Returned tt)
       (if truthy_list l' then out else []).
Proof.
  intros <- Hm. destruct (truthy_list l); [exact Hm | apply runs_ret].
Qed.

(** Takes apart a successful [tree_at]. *)
Ltac loaded :=
  repeat match goal with
    | H : obind ?e _ = Some _ |- _ =>
        let E := fresh "E" in
        destruct e eqn:E; simpl in H; [|discriminate H]
    | H : match ?o with Some _ => _ | None => _ end = Some _ |- _ =>
        destruct o; simpl in H
    | H : Some _ = Some _ |- _ => injection H as <-
    | H : None = Some _ |- _ => discriminate H
    end.

(** When the objects reached from [self] stand for the tree [n],
    [print_node] on the object returns, having printed what [Ast.print_node]
    gives for [n], and leaves the store as it is. *)
Lemma print_obj_tree (fuel : nat) (h : list object) :
  forall self n, tree_at fuel h self = Some n ->
  forall indent,
    runs (print_obj fuel self indent) h (Returned tt) (print_node n indent).
Proof.
  induction fuel as [|fuel IH]; intros self n H indent; [discriminate H|].
  cbn [tree_at] in H.
  destruct (nth_error h self) as [x|] eqn:E; simpl in H; [|discriminate H].
  cbn [print_obj]. apply (runs_deref _ _ _ x _ _ E).
  destruct x; loaded; cbn [print_node];
    repeat match goal with
      | |- runs (print _) _ _ [_] => apply runs_print
      | |- runs (ret tt) _ _ [] => apply runs_ret
      | |- runs (bind _ _) _ _ (_ ++ _) => apply runs_seq
      | |- runs (print_obj _ _ _) _ _ (print_node _ _) => now apply IH
      | |- runs (if truthy_list _ then _ else _) _ _ _ =>
          apply runs_guarded; [eapply map_option_truthy; eassumption|]
      | |- runs (for_each _ _) _ _ (flat_map _ _) =>
          eapply runs_for_each; [|eassumption];
          let a := fresh "a" in let b := fresh "b" in let Hab := fresh "Hab" in
          intros a b Hab; simpl in Hab;
          try (destruct a; loaded)
      end.
  eapply (runs_for_each (@Some _)); [|apply map_option_some].
  intros [name alias] y Hy. injection Hy as <-. apply runs_print.
Qed.

(** *** Building the objects of a tree *)

(** Adds an object to the store; its reference is the next free place. *)
Definition push (x : object) (h : list object) : list object * ref :=
  (h ++ [x], List.length h).

(** Allocates the entries of a list one after the other. *)
Definition alloc_all {A R : Type}
           (alloc1 : A -> list object -> list object * R)
  : list A -> list object -> list object * list R :=
  fix go (l : list A) (h : list object) : list object * list R :=
    match l with
    | [] => (h, [])
    | x :: l' =>
        let (h1, r) := alloc1 x h in
        let (h2, rs) := go l' h1 in
        (h2, r :: rs)
    end.

(** The objects the constructors build for the tree [n], added to the store
    [h] children first, and the reference to the object of [n]. *)
Fixpoint alloc (n : node) (h : list object) : list object * ref :=
  let alloc_kw (kv : string * node) (h : list object) :=
    let (h1, r) := alloc (snd kv) h in (h1, (fst kv, r)) in
  let alloc_item (kv : node * node) (h : list object) :=
    let (h1, rk) := alloc (fst kv) h in
    let (h2, rv) := alloc (snd kv) h1 in
    (h2, (rk, rv)) in
  match n with
  | IntLiteralNode value => push (obj_IntLiteralNode value) h
  | FloatLiteralNode value => push (obj_FloatLiteralNode value) h
  | StringLiteralNode value f => push (obj_StringLiteralNode value f) h
  | BoolLiteralNode value => push (obj_BoolLiteralNode value) h
  | NoneLiteralNode => push obj_NoneLiteralNode h
  | IdentifierNode name => push (obj_IdentifierNode name) h
  | BinaryOpNode op lhs rhs =>
      let (h1, l) := alloc lhs h in
      let (h2, r) := alloc rhs h1 in
      push (obj_BinaryOpNode op l r) h2
  | AssignmentNode target value =>
      let (h1, t) := alloc target h in
      let (h2, v) := alloc value h1 in
      push (obj_AssignmentNode t v) h2
  | FunctionCallNode callable arguments keyword_args =>
      let (h1, c) := alloc callable h in
      let (h2, args) := alloc_all alloc arguments h1 in
      let (h3, kw) := alloc_all alloc_kw keyword_args h2 in
      push (obj_FunctionCallNode c args kw) h3
  | ParameterNode name default_value kwonly =>
      match default_value with
      | Some dv =>
          let (h1, d) := alloc dv h in
          push (obj_ParameterNode name (Some d) kwonly) h1
      | None => push (obj_ParameterNode name None kwonly) h
      end
  | FunctionDefNode name parameters body =>
      let (h1, ps) := alloc_all alloc parameters h in
      let (h2, b) := alloc_all alloc body h1 in
      push (obj_FunctionDefNode name ps b) h2
  | ClassDefNode name bases body =>
      let (h1, bs) := alloc_all alloc bases h in
      let (h2, b) := alloc_all alloc body h1 in
      push (obj_ClassDefNode name bs b) h2
  | ReturnNode value =>
      match value with
      | Some v =>
          let (h1, r) := alloc v h in push (obj_ReturnNode (Some r)) h1
      | None => push (obj_ReturnNode None) h
      end
  | ImportNode module alias => push (obj_ImportNode module alias) h
  | FromImportNode module imports => push (obj_FromImportNode module imports) h
  | IfNode condition then_body else_body =>
      let (h1, c) := alloc condition h in
      let (h2, t) := alloc_all alloc then_body h1 in
      let (h3, e) := alloc_all alloc else_body h2 in
      push (obj_IfNode c t e) h3
  | WhileNode condition body =>
      let (h1, c) := alloc condition h in
      let (h2, b) := alloc_all alloc body h1 in
      push (obj_WhileNode c b) h2
  | ForNode target iterable body =>
      let (h1, t) := alloc target h in
      let (h2, i) := alloc iterable h1 in
      let (h3, b) := alloc_all alloc body h2 in
      push (obj_ForNode t i b) h3
  | AttributeNode value attr =>
      let (h1, v) := alloc value h in push (obj_AttributeNode v attr) h1
  | ListNode elements =>
      let (h1, es) := alloc_all alloc elements h in push (obj_ListNode es) h1
  | DictNode items =>
      let (h1, kvs) := alloc_all alloc_item items h in
      push (obj_DictNode kvs) h1
  | SubscriptNode value index =>
      let (h1, v) := alloc value h in
      let (h2, i) := alloc index h1 in
      push (obj_SubscriptNode v i) h2
  | PassNode => push obj_PassNode h
  | BreakNode => push obj_BreakNode h
  | ContinueNode => push obj_ContinueNode h
  end.

(** [h'] holds the objects of [h], at the same references, and more. *)
Definition extends (h h' : list object) : Prop := exists ext, h' = h ++ ext.

Lemma extends_refl (h : list object) : extends h h.
Proof. exists []. now rewrite app_nil_r. Qed.

Lemma extends_trans (h1 h2 h3 : list object) :
  extends h1 h2 -> extends h2 h3 -> extends h1 h3.
Proof. intros [e1 ->] [e2 ->]. exists (e1 ++ e2). now rewrite app_assoc. Qed.

Lemma extends_push (x : object) (h : list object) : extends h (h ++ [x]).
Proof. now exists [x]. Qed.

Lemma extends_nth (x : object) (h h' : list object) :
  extends (h ++ [x]) h' -> nth_error h' (List.length h) = Some x.
Proof.
  intros [ext ->]. rewrite <- app_assoc. simpl.
  rewrite nth_error_app2 by lia. now rewrite Nat.sub_diag.
Qed.

(** Allocating [x] only adds objects, and what it adds is read back as [x]
    by [read], from every larger store and with every larger bound. *)
Definition stored {A R : Type}
           (alloc1 : A -> list object -> list object * R)
           (read : nat -> list object -> R -> option A) (x : A) : Prop :=
  forall h,
    extends h (fst (alloc1 x h))
    /\ exists fuel, forall h' fuel',
        extends (fst (alloc1 x h)) h' -> fuel <= fuel' ->
        read fuel' h' (snd (alloc1 x h)) = Some x.

Lemma stored_all {A R : Type}
      (alloc1 : A -> list object -> list object * R)
      (read : nat -> list object -> R -> option A) (l : list A) :
  Forall (stored alloc1 read) l ->
  stored (alloc_all alloc1) (fun fuel h => map_option (read fuel h)) l.
Proof.
  induction 1 as [|x l Hx _ IH]; intros h; simpl.
  - split; [apply extends_refl|]. exists 0. reflexivity.
  - destruct (Hx h) as (X1 & f1 & L1).
    destruct (alloc1 x h) as [h1 r]. simpl in X1, L1.
    destruct (IH h1) as (X2 & f2 & L2).
    destruct (alloc_all alloc1 l h1) as [h2 rs]. simpl in X2, L2. simpl.
    split; [eapply extends_trans; eassumption|].
    exists (f1 + f2). intros h' fuel' He Hf. simpl.
    rewrite L1 by (try lia; eapply extends_trans; eassumption). simpl.
    rewrite L2 by (try lia; assumption). reflexivity.
Qed.

Lemma stored_kw (kv : string * node) :
  stored alloc tree_at (snd kv) ->
  stored (fun (kv : string * node) h =>
            let (h1, r) := alloc (snd kv) h in (h1, (fst kv, r)))
         (fun fuel h (kv : string * ref) =>
            match kv with
            | (key, value) => load v <- tree_at fuel h value; Some (key, v)
            end) kv.
Proof.
  destruct kv as [key value]. simpl. intros H h. simpl.
  destruct (H h) as (X & f & L). destruct (alloc value h) as [h1 r].
  simpl in *. split; [exact X|]. exists f. intros h' fuel' He Hf.
  now rewrite L.
Qed.

Lemma stored_item (kv : node * node) :
  stored alloc tree_at (fst kv) -> stored alloc tree_at (snd kv) ->
  stored (fun (kv : node * node) h =>
            let (h1, rk) := alloc (fst kv) h in
            let (h2, rv) := alloc (snd kv) h1 in
            (h2, (rk, rv)))
         (fun fuel h (kv : ref * ref) =>
            match kv with
            | (key, value) =>
                load k <- tree_at fuel h key;
                load v <- tree_at fuel h value;
                Some (k, v)
            end) kv.
Proof.
  destruct kv as [key value]. simpl. intros Hk Hv h. simpl.
  destruct (Hk h) as (X1 & f1 & L1). destruct (alloc key h) as [h1 rk].
  simpl in X1, L1.
  destruct (Hv h1) as (X2 & f2 & L2). destruct (alloc value h1) as [h2 rv].
  simpl in *. split; [eapply extends_trans; eassumption|].
  exists (f1 + f2). intros h' fuel' He Hf.
  rewrite L1 by (try lia; eapply extends_trans; eassumption). simpl.
  now rewrite L2 by (try lia; assumption).
Qed.

(** Proves that one store extends another along a chain of allocations. *)
Ltac chain :=
  solve [eauto 12 using extends_refl, extends_trans, extends_push].

(** Allocates the next child in the goal and recalls what is stored. *)
Ltac alloc_next :=
  let X := fresh "X" in
  let f := fresh "f" in
  let L := fresh "L" in
  let h1 := fresh "h" in
  let r := fresh "r" in
  match goal with
  | IH : stored alloc tree_at ?c |- context [alloc ?c ?h] =>
      destruct (IH h) as (X & f & L);
      destruct (alloc c h) as [h1 r]; simpl fst in X, L; simpl snd in L
  | |- context [alloc_all ?a ?l ?h] =>
      let S := fresh "S" in
      assert (stored (alloc_all a) _ l) as S
          by (apply stored_all;
              first [ eassumption
                    | eapply Forall_impl; [|eassumption];
                      intros ? ?; apply stored_kw; assumption
                    | eapply Forall_impl; [|eassumption];
                      intros ? [? ?]; apply stored_item; assumption ]);
      destruct (S h) as (X & f & L); clear S;
      destruct (alloc_all a l h) as [h1 r];
      simpl fst in X, L; simpl snd in L; cbv beta in L
  end;
  cbv beta iota.

(** The sum of the bounds of the children, plus one for the node. *)
Ltac node_fuel :=
  let rec go acc :=
    match goal with
    | L : forall h' fuel', extends _ h' -> ?f <= fuel' -> _ |- _ =>
        lazymatch acc with
        | context [f] => fail
        | _ => go (f + acc)
        end
    | _ => exists (S acc)
    end in
  go 0.

(** Every tree can be built in the store and is read back from it. *)
Lemma alloc_stored (n : node) : stored alloc tree_at n.
Proof.
  induction n using node_nested_ind; intros h; cbn [alloc];
    repeat match goal with
      | H : on_option _ ?o |- _ => destruct o; simpl in H
      end;
    repeat alloc_next; unfold push; simpl fst; simpl snd;
    (split; [chain|]); node_fuel;
    intros h' fuel' He Hf; (destruct fuel' as [|fuel']; [lia|]);
    cbn [tree_at]; rewrite (extends_nth _ _ _ He); cbn [obind];
    repeat match goal with
      | L : forall h' fuel', extends _ h' -> _ <= fuel' -> _ = Some _ |- _ =>
          rewrite L by (first [lia | chain]); clear L; cbn [obind]
      end;
    reflexivity.
Qed.

End Heap.

(* ================================================================= *)
(** ** The class table of [ast_nodes.py] *)

Module Classes.

(** The classes the module defines, in the order of the file. *)
Inductive class : Type :=
  | class_ASTNode
  | class_IntLiteralNode
  | class_FloatLiteralNode
  | class_StringLiteralNode
  | class_BoolLiteralNode
  | class_NoneLiteralNode
  | class_IdentifierNode
  | class_BinaryOpNode
  | class_AssignmentNode
  | class_FunctionCallNode
  | class_ParameterNode
  | class_FunctionDefNode
  | class_ClassDefNode
  | class_ReturnNode
  | class_ImportNode
  | class_FromImportNode
  | class_IfNode
  | class_WhileNode
  | class_ForNode
  | class_AttributeNode
  | class_ListNode
  | class_DictNode
  | class_SubscriptNode
  | class_PassNode
  | class_BreakNode
  | class_ContinueNode.

Definition all_classes : list class :=
  [class_ASTNode;
   class_IntLiteralNode;
   class_FloatLiteralNode;
   class_StringLiteralNode;
   class_BoolLiteralNode;
   class_NoneLiteralNode;
   class_IdentifierNode;
   class_BinaryOpNode;
   class_AssignmentNode;
   class_FunctionCallNode;
   class_ParameterNode;
   class_FunctionDefNode;
   class_ClassDefNode;
   class_ReturnNode;
   class_ImportNode;
   class_FromImportNode;
   class_IfNode;
   class_WhileNode;
   class_ForNode;
   class_AttributeNode;
   class_ListNode;
   class_DictNode;
   class_SubscriptNode;
   class_PassNode;
   class_BreakNode;
   class_ContinueNode].

(** The base a class statement names; [ASTNode] names none. *)
Definition base_of (c : class) : option class :=
  match c with
  | class_ASTNode => None
  | _ => Some class_ASTNode
  end.

(** The methods a class body defines, in the order of the file. *)
Definition methods_of (c : class) : list string :=
  match c with
  | class_ASTNode
  | class_NoneLiteralNode
  | class_PassNode
  | class_BreakNode
  | class_ContinueNode => ["print_node"]
  | _ => ["__init__"; "print_node"]
  end.

(** Method resolution: the first class, from [c] up its bases, whose body
    defines [method]. *)
Fixpoint lookup (fuel : nat) (c : class) (method : string) : option class :=
  match fuel with
  | O => None
  | S fuel =>
      if existsb (String.eqb method) (methods_of c) then Some c
      else match base_of c with
           | Some b => lookup fuel b method
           | None => None
           end
  end.

(** No class is more than one step below [ASTNode]. *)
Definition resolve (c : class) (method : string) : option class :=
  lookup 2 c method.

(** The concrete node classes: those derived from [ASTNode]. *)
Definition concrete_classes : list class :=
  filter (fun c => match base_of c with Some _ => true | None => false end)
         all_classes.

(** The class an object is an instance of. *)
Definition class_of_object (x : Heap.object) : class :=
  match x with
  | Heap.obj_ASTNode => class_ASTNode
  | Heap.obj_IntLiteralNode _ => class_IntLiteralNode
  | Heap.obj_FloatLiteralNode _ => class_FloatLiteralNode
  | Heap.obj_StringLiteralNode _ _ => class_StringLiteralNode
  | Heap.obj_BoolLiteralNode _ => class_BoolLiteralNode
  | Heap.obj_NoneLiteralNode => class_NoneLiteralNode
  | Heap.obj_IdentifierNode _ => class_IdentifierNode
  | Heap.obj_BinaryOpNode _ _ _ => class_BinaryOpNode
  | Heap.obj_AssignmentNode _ _ => class_AssignmentNode
  | Heap.obj_FunctionCallNode _ _ _ => class_FunctionCallNode
  | Heap.obj_ParameterNode _ _ _ => class_ParameterNode
  | Heap.obj_FunctionDefNode _ _ _ => class_FunctionDefNode
  | Heap.obj_ClassDefNode _ _ _ => class_ClassDefNode
  | Heap.obj_ReturnNode _ => class_ReturnNode
  | Heap.obj_ImportNode _ _ => class_ImportNode
  | Heap.obj_FromImportNode _ _ => class_FromImportNode
  | Heap.obj_IfNode _ _ _ => class_IfNode
  | Heap.obj_WhileNode _ _ => class_WhileNode
  | Heap.obj_ForNode _ _ _ => class_ForNode
  | Heap.obj_AttributeNode _ _ => class_AttributeNode
  | Heap.obj_ListNode _ => class_ListNode
  | Heap.obj_DictNode _ => class_DictNode
  | Heap.obj_SubscriptNode _ _ => class_SubscriptNode
  | Heap.obj_PassNode => class_PassNode
  | Heap.obj_BreakNode => class_BreakNode
  | Heap.obj_ContinueNode => class_ContinueNode
  end.

(** The class of the root of a tree. *)
Definition class_of_node (n : Ast.node) : class :=
  match n with
  | Ast.IntLiteralNode _ => class_IntLiteralNode
  | Ast.FloatLiteralNode _ => class_FloatLiteralNode
  | Ast.StringLiteralNode _ _ => class_StringLiteralNode
  | Ast.BoolLiteralNode _ => class_BoolLiteralNode
  | Ast.NoneLiteralNode => class_NoneLiteralNode
  | Ast.IdentifierNode _ => class_IdentifierNode
  | Ast.BinaryOpNode _ _ _ => class_BinaryOpNode
  | Ast.AssignmentNode _ _ => class_AssignmentNode
  | Ast.FunctionCallNode _ _ _ => class_FunctionCallNode
  | Ast.ParameterNode _ _ _ => class_ParameterNode
  | Ast.FunctionDefNode _ _ _ => class_FunctionDefNode
  | Ast.ClassDefNode _ _ _ => class_ClassDefNode
  | Ast.ReturnNode _ => class_ReturnNode
  | Ast.ImportNode _ _ => class_ImportNode
  | Ast.FromImportNode _ _ => class_FromImportNode
  | Ast.IfNode _ _ _ => class_IfNode
  | Ast.WhileNode _ _ => class_WhileNode
  | Ast.ForNode _ _ _ => class_ForNode
  | Ast.AttributeNode _ _ => class_AttributeNode
  | Ast.ListNode _ => class_ListNode
  | Ast.DictNode _ => class_DictNode
  | Ast.SubscriptNode _ _ => class_SubscriptNode
  | Ast.PassNode => class_PassNode
  | Ast.BreakNode => class_BreakNode
  | Ast.ContinueNode => class_ContinueNode
  end.

Lemma concrete_class_of_node (n : Ast.node) :
  In (class_of_node n) concrete_classes.
Proof.
  destruct n; simpl;
    repeat (first [left; reflexivity | right]).
Qed.

Lemma concrete_class_of_object (x : Heap.object) :
  In (class_of_object x) concrete_classes <-> x <> Heap.obj_ASTNode.
Proof.
  split.
  - intros H ->. simpl in H.
    repeat (destruct H as [H|H]; [discriminate H|]). exact H.
  - intros H. destruct x; try (now destruct H); simpl;
      repeat (first [left; reflexivity | right]).
Qed.

End Classes.

(* ================================================================= *)
(** ** Effects of rendering *)

Module Effects.
Import Ast Heap.

(** The assignment [x = 1 + 2], as the parser builds it: leaves first. *)
Definition sample_heap : list object :=
  [obj_IdentifierNode "x";
   obj_IntLiteralNode 1;
   obj_IntLiteralNode 2;
   obj_BinaryOpNode "+" 1 2;
   obj_AssignmentNode 0 3].

Definition sample_tree : node :=
  AssignmentNode (IdentifierNode "x")
                 (BinaryOpNode "+" (IntLiteralNode 1) (IntLiteralNode 2)).

Example sample_heap_holds_tree : tree_at 3 sample_heap 4 = Some sample_tree.
Proof. reflexivity. Qed.

Example sample_heap_rendered :
  print_obj 3 4 0 {| heap := sample_heap; stdout := [] |}
  = (Returned tt,
     {| heap := sample_heap;
        stdout := ["Assignment";
                   "  Target:"; "    Identifier(x)";
                   "  Value:"; "    BinaryOp(+)";
                   "      IntLiteral(1)"; "      IntLiteral(2)"] |}).
Proof. reflexivity. Qed.

(** A run from [s] in full: its outcome, and the state with the store of
    [s] and the printed lines added. *)
Lemma print_obj_run (fuel : nat) (self : ref) (indent : nat) (s : state) :
  exists o out,
    runs (print_obj fuel self indent) (heap s) o out
    /\ print_obj fuel self indent s
       = (o, {| heap := heap s; stdout := stdout s ++ out |}).
Proof.
  destruct (print_obj_store_only false fuel self indent (heap s))
    as (o & out & Hruns & _); [discriminate|].
  exists o, out. split; [exact Hruns | exact (Hruns s eq_refl)].
Qed.

(** A run over a store that holds a tree. *)
Lemma print_obj_tree_run (fuel : nat) (self : ref) (indent : nat)
      (s : state) (n : node) :
  tree_at fuel (heap s) self = Some n ->
  print_obj fuel self indent s
  = (Returned tt,
     {| heap := heap s; stdout := stdout s ++ print_node n indent |}).
Proof.
  intros H. exact (print_obj_tree fuel (heap s) self n H indent s eq_refl).
Qed.

(** Rendering the object built for a tree: with a large enough bound the
    call returns, having printed what [Ast.print_node] gives for the tree. *)
Lemma print_obj_alloc (n : node) (h : list object) :
  exists fuel, forall fuel' indent out0,
    fuel <= fuel' ->
    tree_at fuel' (fst (alloc n h)) (snd (alloc n h)) = Some n
    /\ print_obj fuel' (snd (alloc n h)) indent
         {| heap := fst (alloc n h); stdout := out0 |}
       = (Returned tt,
          {| heap := fst (alloc n h);
             stdout := out0 ++ print_node n indent |}).
Proof.
  destruct (alloc_stored n h) as (_ & fuel & L). exists fuel.
  intros fuel' indent out0 Hf.
  assert (tree_at fuel' (fst (alloc n h)) (snd (alloc n h)) = Some n) as Ht
      by (apply L; [apply extends_refl | exact Hf]).
  split; [exact Ht|].
  exact (print_obj_tree_run fuel' _ indent
           {| heap := fst (alloc n h); stdout := out0 |} n Ht).
Qed.

(** C4: rendering is deterministic.  Calling [print_node] twice in a row on
    the same object at the same depth ends the same way and prints the same
    lines, hence the same text, both times; so does a call from any other
    state with the same store.  For every tree, both calls on the object
    built for it return and print the lines of [Ast.print_node], a function
    of the tree and the depth. *)
Theorem print_node_deterministic :
  (forall fuel self indent s,
      exists o out,
        print_obj fuel self indent s
        = (o, {| heap := heap s; stdout := stdout s ++ out |})
        /\ print_obj fuel self indent
             {| heap := heap s; stdout := stdout s ++ out |}
           = (o, {| heap := heap s; stdout := (stdout s ++ out) ++ out |})
        /\ (forall s', heap s' = heap s ->
             print_obj fuel self indent s'
             = (o, {| heap := heap s; stdout := stdout s' ++ out |})))
  /\ (forall n indent h out0,
      exists fuel, forall fuel', fuel <= fuel' ->
        let self := snd (alloc n h) in
        let once := out0 ++ print_node n indent in
        print_obj fuel' self indent
          {| heap := fst (alloc n h); stdout := out0 |}
        = (Returned tt, {| heap := fst (alloc n h); stdout := once |})
        /\ print_obj fuel' self indent
             {| heap := fst (alloc n h); stdout := once |}
           = (Returned tt,
              {| heap := fst (alloc n h);
                 stdout := once ++ print_node n indent |})).
Proof.
  split.
  - intros fuel self indent s.
    destruct (print_obj_run fuel self indent s) as (o & out & Hruns & Hs).
    exists o, out. split; [exact Hs|]. split.
    + exact (Hruns {| heap := heap s; stdout := stdout s ++ out |} eq_refl).
    + intros s' E. exact (Hruns s' E).
  - intros n indent h out0.
    destruct (print_obj_alloc n h) as (fuel & H). exists fuel.
    intros fuel' Hf. simpl. split; apply H; exact Hf.
Qed.

(** C5: rendering only prints.  Whatever way a call of [print_node] ends,
    it leaves every object of the store as it was, so every field of the
    rendered node and of the nodes below it holds the value it held before,
    and the only other part of the state, standard output, keeps its lines
    and gains the printed ones.  For every tree, the call on the object
    built for it returns, the lines it adds are those of [Ast.print_node],
    and the store holds the same tree after it. *)
Theorem print_node_only_prints :
  (forall fuel self indent s,
      heap (snd (print_obj fuel self indent s)) = heap s
      /\ (forall r, nth_error (heap (snd (print_obj fuel self indent s))) r
                   = nth_error (heap s) r)
      /\ (forall k r, tree_at k (heap (snd (print_obj fuel self indent s))) r
                     = tree_at k (heap s) r)
      /\ (exists out,
             stdout (snd (print_obj fuel self indent s)) = stdout s ++ out))
  /\ (forall n indent h out0,
      exists fuel, forall fuel', fuel <= fuel' ->
        let self := snd (alloc n h) in
        let s := {| heap := fst (alloc n h); stdout := out0 |} in
        tree_at fuel' (heap s) self = Some n
        /\ fst (print_obj fuel' self indent s) = Returned tt
        /\ heap (snd (print_obj fuel' self indent s)) = heap s
        /\ stdout (snd (print_obj fuel' self indent s))
           = out0 ++ print_node n indent
        /\ tree_at fuel' (heap (snd (print_obj fuel' self indent s))) self
           = Some n).
Proof.
  split.
  - intros fuel self indent s.
    destruct (print_obj_run fuel self indent s) as (o & out & _ & Hs).
    assert (heap (snd (print_obj fuel self indent s)) = heap s) as Hheap
        by now rewrite Hs.
    split; [exact Hheap|]. rewrite Hheap.
    split; [reflexivity|]. split; [reflexivity|].
    exists out. now rewrite Hs.
  - intros n indent h out0.
    destruct (print_obj_alloc n h) as (fuel & H). exists fuel.
    intros fuel' Hf. destruct (H fuel' indent out0 Hf) as [Ht Hrun].
    simpl. rewrite Hrun. simpl. repeat split; try reflexivity; exact Ht.
Qed.

(** C9, as stated, miscounts: the module defines 26 classes, of which 25
    are concrete and one is the base. *)
Lemma concrete_classes_are_25 :
  List.length Classes.all_classes = 26
  /\ List.length Classes.concrete_classes = 25
  /\ List.length Classes.concrete_classes <> 26.
Proof.
  split; [reflexivity|]. split; [reflexivity|].
  simpl. intros H. discriminate H.
Qed.

(** C9, amended: the module defines 25 concrete node classes and the base
    [ASTNode].  Each concrete class defines [print_node] itself, so the
    method resolves to the class and never to the base, whose [print_node]
    raises [NotImplementedError]; every node of a tree is an instance of a
    concrete class.  Hence over a store of instances of concrete classes a
    call of [print_node] raises nothing, over a store that holds a tree it
    returns, and so it does on the object built for any tree; an instance
    of the base itself does raise. *)
Theorem base_print_node_unreachable :
  List.length Classes.concrete_classes = 25
  /\ Forall (fun c => Classes.resolve c "print_node" = Some c)
            Classes.concrete_classes
  /\ Classes.resolve Classes.class_ASTNode "print_node"
     = Some Classes.class_ASTNode
  /\ (forall n, In (Classes.class_of_node n) Classes.concrete_classes)
  /\ (forall x, In (Classes.class_of_object x) Classes.concrete_classes
               <-> x <> obj_ASTNode)
  /\ (forall fuel self indent s,
         concrete_store (heap s) ->
         not_raised (fst (print_obj fuel self indent s)))
  /\ (forall fuel self indent s n,
         tree_at fuel (heap s) self = Some n ->
         print_obj fuel self indent s
         = (Returned tt,
            {| heap := heap s; stdout := stdout s ++ print_node n indent |}))
  /\ (forall n indent h out0,
         exists fuel, forall fuel', fuel <= fuel' ->
           print_obj fuel' (snd (alloc n h)) indent
             {| heap := fst (alloc n h); stdout := out0 |}
           = (Returned tt,
              {| heap := fst (alloc n h);
                 stdout := out0 ++ print_node n indent |}))
  /\ print_obj 1 0 0 {| heap := [obj_ASTNode]; stdout := [] |}
     = (Raised (NotImplementedError "Each AST node must implement print_node"),
        {| heap := [obj_ASTNode]; stdout := [] |}).
Proof.
  split; [reflexivity|].
  split; [unfold Classes.concrete_classes; simpl;
          repeat constructor|].
  split; [reflexivity|].
  split; [exact Classes.concrete_class_of_node|].
  split; [exact Classes.concrete_class_of_object|].
  split; [|split; [|split; [|reflexivity]]].
  - intros fuel self indent s Hs.
    destruct (print_obj_store_only true fuel self indent (heap s))
      as (o & out & Hruns & Ho); [intros _; exact Hs|].
    rewrite (Hruns s eq_refl). simpl. now apply Ho.
  - intros fuel self indent s n Hn. now apply print_obj_tree_run.
  - intros n indent h out0.
    destruct (print_obj_alloc n h) as (fuel & H). exists fuel.
    intros fuel' Hf. now apply H.
Qed.

End Effects.

(* ================================================================= *)
(** ** The driver *)

Module Driver.
Import Ast Heap.

(** *** Exceptions and the collaborators of [main] *)

(** The class of an exception as the handlers of [main] tell it apart: an
    instance of [FileNotFoundError], else of [SyntaxError], else of any other
    subclass of [Exception].  Exceptions outside [Exception] that reach the
    [try] block (a keyboard interrupt) are not caught by [main] and are not
    modelled. *)
Inductive exception_class : Type :=
  | FileNotFoundError
  | SyntaxError
  | OtherException.

(** An exception: its class and [str(e)]. *)
Record exception : Type :=
  Exc { exc_class : exception_class; exc_str : string }.

(** The exception of the renderer, as [main] sees it: [NotImplementedError]
    is an [Exception] that is neither of the two named classes, and its
    [str] is its message. *)
Definition caught (e : Heap.exception) : exception :=
  match e with
  | NotImplementedError message => Exc OtherException message
  end.

(** What [main] depends on and takes as given, each returning or raising:
    - [parse_args], the [argparse] parser on the command line: the input
      file, or the exit that [argparse] raises, with what it printed on
      standard output and its status;
    - [read_file], which returns the text of the file or raises what [open]
      raises;
    - [Lexer(source).tokenize()] and [Parser(tokens).parse()], whose modules
      are not part of these sources; the parser returns the objects it built
      and the references to the top-level statements. *)
Record collaborators : Type := {
  token : Type;
  parse_args : list string -> (list string * Z) + string;
  read_file : string -> exception + string;
  tokenize : string -> exception + list token;
  parse : list token -> exception + (list object * list ref)
}.

(** *** [main] *)

(** The last statements of the [try] block: the header, the line of dashes
    and [node.print_node()] for each top-level statement. *)
Definition print_tree (fuel : nat) (input_file : string)
           (ast_nodes : list ref) : M unit :=
  print ("Abstract Syntax Tree for " +++ input_file +++ ":") ;;
  print (str_mul "-" 50) ;;
  for_each ast_nodes (fun node => print_obj fuel node 0).

(** How the [try] block ends: it runs to its end, it raises an exception
    that a handler catches, or the rendering leaves the model (a reference
    to nothing, or nesting deeper than the bound [fuel]). *)
Inductive ending : Type :=
  | Completed
  | Raises (e : exception)
  | Beyond.

(** The [try] block: the lines it printed, and how it ended.  Reading,
    tokenizing and parsing print nothing; the rendering prints until it ends
    or raises. *)
Definition try_body (env : collaborators) (fuel : nat) (input_file : string)
  : list string * ending :=
  match read_file env input_file with
  | inl e => ([], Raises e)
  | inr source =>
      match tokenize env source with
      | inl e => ([], Raises e)
      | inr tokens =>
          match parse env tokens with
          | inl e => ([], Raises e)
          | inr (h, ast_nodes) =>
              match print_tree fuel input_file ast_nodes
                               {| heap := h; stdout := [] |} with
              | (Returned _, s) => (stdout s, Completed)
              | (Raised e, s) => (stdout s, Raises (caught e))
              | (Stuck, s) => (stdout s, Beyond)
              | (OutOfFuel, s) => (stdout s, Beyond)
              end
          end
      end
  end.

(** The line an [except] clause prints. *)
Definition report (input_file : string) (e : exception) : string :=
  match exc_class e with
  | FileNotFoundError => "Error: Could not open file " +++ input_file
  | SyntaxError => "Syntax Error: " +++ exc_str e
  | OtherException => "Error: " +++ exc_str e
  end.

(** [sys.exit(main())] on the command line [argv]: the lines printed on
    standard output and the exit status; nothing when the rendering leaves
    the model.  An exit raised by [parse_args] is raised before the [try]
    block and ends the run with its own status. *)
Definition main (env : collaborators) (fuel : nat) (argv : list string)
  : option (list string * Z) :=
  match parse_args env argv with
  | inl (out, status) => Some (out, status)
  | inr input_file =>
      match try_body env fuel input_file with
      | (out, Completed) => Some (out, 0%Z)
      | (out, Raises e) => Some (out ++ [report input_file e], 1%Z)
      | (out, Beyond) => None
      end
  end.

(** The fixed text a handler's line starts with. *)
Definition message_prefix (c : exception_class) : string :=
  match c with
  | FileNotFoundError => "Error: Could not open file "
  | SyntaxError => "Syntax Error: "
  | OtherException => "Error: "
  end.

(** *** The error taxonomy *)

(** Modelled from the spec: the four members of the error taxonomy of its
    section on error handling; the sources define no such classes. *)
Inductive error_kind : Type :=
  | FileAccessError
  | LexicalError
  | SyntaxError_kind
  | InternalError.

(** The taxonomy is mapped to distinct prefixes under [raised_as], the
    exception class each kind of error reaches [main] as. *)
Definition distinct_prefixes (raised_as : error_kind -> exception_class)
  : Prop :=
  forall k1 k2,
    message_prefix (raised_as k1) = message_prefix (raised_as k2) -> k1 = k2.

(** *** Runs *)

(** [argparse] on a command line of plain names, none starting with a dash
    (an option is not covered here): one argument is the input file; none,
    or more than one, is a usage error, reported on standard error with
    exit status 2. *)
Definition one_positional (argv : list string)
  : (list string * Z) + string :=
  match argv with
  | [input_file] => inr input_file
  | _ => inl ([], 2%Z)
  end.

(** A file that does not exist. *)
Definition no_such_file : collaborators :=
  {| token := unit;
     parse_args := one_positional;
     read_file := fun _ =>
       inl (Exc FileNotFoundError "[Errno 2] No such file or directory");
     tokenize := fun _ => inr [];
     parse := fun _ => inr ([], []) |}.

(** A parser that leaves an instance of the base class as the right operand
    of [1 + ...]. *)
Definition abstract_operand : collaborators :=
  {| token := unit;
     parse_args := one_positional;
     read_file := fun _ => inr "1 + ...";
     tokenize := fun _ => inr [];
     parse := fun _ =>
       inr ([obj_IntLiteralNode 1; obj_ASTNode; obj_BinaryOpNode "+" 0 1],
            [2]) |}.

(** When the [try] block raises: a stage before the rendering raised, and
    nothing was printed, or the rendering raised after the header, the
    dashes and part of the tree. *)
Lemma try_body_raises (env : collaborators) (fuel : nat)
      (input_file : string) (out : list string) (e : exception) :
  try_body env fuel input_file = (out, Raises e) <->
  (out = [] /\ read_file env input_file = inl e)
  \/ (exists source,
        read_file env input_file = inr source
        /\ ((out = [] /\ tokenize env source = inl e)
            \/ exists tokens,
                 tokenize env source = inr tokens
                 /\ ((out = [] /\ parse env tokens = inl e)
                     \/ exists h ast_nodes e' s,
                          parse env tokens = inr (h, ast_nodes)
                          /\ print_tree fuel input_file ast_nodes
                               {| heap := h; stdout := [] |}
                             = (Raised e', s)
                          /\ e = caught e' /\ out = stdout s))).
Proof.
  unfold try_body. split.
  - destruct (read_file env input_file) as [e0|source].
    + intros H. injection H as <- <-. left. split; reflexivity.
    + right. exists source. split; [reflexivity|].
      destruct (tokenize env source) as [e0|tokens].
      * injection H as <- <-. left. split; reflexivity.
      * right. exists tokens. split; [reflexivity|].
        destruct (parse env tokens) as [e0|[h ast_nodes]].
        -- injection H as <- <-. left. split; reflexivity.
        -- right.
           destruct (print_tree fuel input_file ast_nodes
                               {| heap := h; stdout := [] |})
             as [[[]|e'| |] s] eqn:E; try discriminate H.
           injection H as <- <-. exists h, ast_nodes, e', s.
           repeat split; try reflexivity. exact E.
  - intros [[-> H] | (source & Hr & [[-> Ht] | (tokens & Ht & [[-> Hp] | H])])].
    + now rewrite H.
    + now rewrite Hr, Ht.
    + now rewrite Hr, Ht, Hp.
    + destruct H as (h & ast_nodes & e' & s & Hp & Hrun & -> & ->).
      now rewrite Hr, Ht, Hp, Hrun.
Qed.

(** Whatever way the rendering ends, it has printed the header and the
    line of dashes first, and has left the objects as they were. *)
Lemma print_tree_prints (fuel : nat) (input_file : string)
      (ast_nodes : list ref) (h : list object) :
  exists o rendered,
    print_tree fuel input_file ast_nodes {| heap := h; stdout := [] |}
    = (o, {| heap := h;
             stdout := "Abstract Syntax Tree for " +++ input_file +++ ":"
                       :: str_mul "-" 50 :: rendered |}).
Proof.
  assert (store_only false
            (for_each ast_nodes (fun node => print_obj fuel node 0)) h)
    as (o & rendered & Hruns & _).
  { apply store_only_for_each. intros r.
    apply print_obj_store_only. discriminate. }
  exists o, rendered.
  assert (runs (print_tree fuel input_file ast_nodes) h o
               (["Abstract Syntax Tree for " +++ input_file +++ ":"]
                ++ [str_mul "-" 50] ++ rendered)) as H.
  { unfold print_tree. apply runs_seq; [apply runs_print|].
    apply runs_seq; [apply runs_print | exact Hruns]. }
  exact (H {| heap := h; stdout := [] |} eq_refl).
Qed.

(** C6, as stated, fails twice.  A run without a file argument fails before
    the [try] block: [argparse] raises the exit, no handler of [main] runs,
    nothing is printed on standard output and the status is 2, not 1.  And
    [main] has three handlers, so whatever classes the four kinds of error
    are raised as, two kinds share a message prefix; the generic line can
    even be, character for character, the line of a missing file. *)
Lemma usage_error_and_shared_prefixes :
  main no_such_file 0 [] = Some ([], 2%Z)
  /\ ~ (exists raised_as : error_kind -> exception_class,
         distinct_prefixes raised_as)
  /\ report "p.py" (Exc FileNotFoundError "[Errno 2] No such file or directory")
     = report "p.py" (Exc OtherException "Could not open file p.py").
Proof.
  split; [reflexivity|]. split; [|reflexivity].
  intros [f H]. unfold distinct_prefixes in H.
  destruct (f FileAccessError) eqn:E1, (f LexicalError) eqn:E2,
           (f SyntaxError_kind) eqn:E3, (f InternalError) eqn:E4;
    match goal with
    | Ea : f ?a = ?c, Eb : f ?b = ?c |- _ =>
        assert (a = b) as Hab by (apply H; rewrite Ea, Eb; reflexivity);
        discriminate Hab
    end.
Qed.

(** C6, amended: every run whose command line is accepted and in which
    the [try] block raises an exception, be it while reading, tokenizing or
    parsing, when nothing has been printed, or while rendering, after the
    header, the dashes and part of the tree, prints the report of the
    exception last and returns 1.  A [FileNotFoundError] is
    reported as [Error: Could not open file] and the input file, a
    [SyntaxError] as [Syntax Error:] and its text, any other exception as
    [Error:] and its text.  The four kinds of error share these three
    forms: a lexical error has none of its own; a [Syntax Error:] line is
    never the line of another class, whereas the generic [Error:] line can
    equal the line of a missing file.  A command line that [argparse]
    refuses ends the run before the [try] block with the status of the
    exit, 2 for a usage error. *)
Theorem main_reports_failure
        (env : collaborators) (fuel : nat) (argv : list string)
        (input_file : string) (out : list string) (e : exception) :
  parse_args env argv = inr input_file ->
  try_body env fuel input_file = (out, Raises e) ->
  main env fuel argv = Some (out ++ [report input_file e], 1%Z)
  /\ (out = []
      \/ exists rendered,
           out = "Abstract Syntax Tree for " +++ input_file +++ ":"
                 :: str_mul "-" 50 :: rendered)
  /\ report input_file e
     = match exc_class e with
       | FileNotFoundError => "Error: Could not open file " +++ input_file
       | SyntaxError => "Syntax Error: " +++ exc_str e
       | OtherException => "Error: " +++ exc_str e
       end
  /\ (forall raised_as : error_kind -> exception_class,
         exists k1 k2,
           k1 <> k2
           /\ message_prefix (raised_as k1) = message_prefix (raised_as k2))
  /\ (forall e1 e2,
         exc_class e1 = SyntaxError -> exc_class e2 <> SyntaxError ->
         report input_file e1 <> report input_file e2)
  /\ (forall text,
         report input_file (Exc FileNotFoundError text)
         = report input_file
                  (Exc OtherException ("Could not open file " +++ input_file)))
  /\ (forall argv' out' status,
         parse_args env argv' = inl (out', status) ->
         main env fuel argv' = Some (out', status))
  /\ main no_such_file fuel [] = Some ([], 2%Z).
Proof.
  intros Hargs Htry.
  split; [unfold main; now rewrite Hargs, Htry|].
  split.
  { apply try_body_raises in Htry.
    destruct Htry
      as [[-> _] | (source & _ & [[-> _] | (tokens & _ & [[-> _] | H])])];
      try (now left).
    destruct H as (h & ast_nodes & e' & s & _ & Hrun & _ & ->).
    destruct (print_tree_prints fuel input_file ast_nodes h)
      as (o & rendered & Hp).
    rewrite Hp in Hrun. injection Hrun as _ <-. right. now exists rendered. }
  split; [reflexivity|].
  split.
  { intros f.
    destruct (f FileAccessError) eqn:E1, (f LexicalError) eqn:E2,
             (f SyntaxError_kind) eqn:E3, (f InternalError) eqn:E4;
      match goal with
      | Ea : f ?a = ?c, Eb : f ?b = ?c |- _ =>
          exists a, b; split; [discriminate | now rewrite Ea, Eb]
      end. }
  split.
  { intros e1 e2 H1 H2. unfold report. rewrite H1.
    destruct (exc_class e2); [discriminate | now destruct H2 | discriminate]. }
  split; [reflexivity|].
  split; [|reflexivity].
  intros argv' out' status H. unfold main. now rewrite H.
Qed.

(** The run on [1 + ...]: the rendering raises after four strings are
    printed, and the report is the fifth. *)
Lemma main_reports_failure_witness :
  parse_args abstract_operand ["prog.py"] = inr "prog.py"
  /\ try_body abstract_operand 2 "prog.py"
     = (["Abstract Syntax Tree for prog.py:"; str_mul "-" 50;
         "BinaryOp(+)"; "  IntLiteral(1)"],
        Raises (Exc OtherException "Each AST node must implement print_node"))
  /\ main abstract_operand 2 ["prog.py"]
     = Some (["Abstract Syntax Tree for prog.py:"; str_mul "-" 50;
              "BinaryOp(+)"; "  IntLiteral(1)";
              "Error: Each AST node must implement print_node"], 1%Z).
Proof.
  split; [reflexivity|]. split; [reflexivity|].
  exact (proj1 (main_reports_failure abstract_operand 2 ["prog.py"] "prog.py"
                  _ _ eq_refl eq_refl)).
Defined.

(** On a missing file [main] prints the [Could not open file] line alone
    and returns 1. *)
Example main_on_missing_file (fuel : nat) :
  main no_such_file fuel ["prog.py"]
  = Some (["Error: Could not open file prog.py"], 1%Z).
Proof. reflexivity. Qed.

End Driver.

(* ================================================================= *)
(** ** The shape of a rendering *)

Module Shape.
Import Ast Layout.

(** *** Rendering deeper only adds blanks *)

Lemma map_flat_map {A B C : Type} (f : B -> C) (g : A -> list B) (l : list A) :
  map f (flat_map g l) = flat_map (fun x => map f (g x)) l.
Proof.
  induction l as [|x l IH]; simpl; [reflexivity|].
  now rewrite map_app, IH.
Qed.

Lemma shift_line (a k : nat) (text : string) :
  spaces (a + k) +++ text = spaces k +++ spaces a +++ text.
Proof. now rewrite Nat.add_comm, spaces_add, append_assoc. Qed.

Lemma shift_2 (d k : nat) : d + k + 2 = d + 2 + k.
Proof. lia. Qed.

Lemma shift_4 (d k : nat) : d + k + 4 = d + 4 + k.
Proof. lia. Qed.

Lemma shift_6 (d k : nat) : d + k + 6 = d + 6 + k.
Proof. lia. Qed.

Lemma flat_map_ext_in {A B : Type} (f g : A -> list B) (l : list A) :
  (forall x, In x l -> f x = g x) -> flat_map f l = flat_map g l.
Proof.
  induction l as [|x l IH]; simpl; intros H; [reflexivity|].
  rewrite (H x) by now left. rewrite IH; [reflexivity|].
  intros y Hy. apply H. now right.
Qed.

(** Rendering [k] deeper puts [k] blanks before every line. *)
Lemma print_node_deeper (n : node) :
  forall d k,
    print_node n (d + k) = map (fun l => spaces k +++ l) (print_node n d).
Proof.
  induction n using node_nested_ind; intros d k; simpl;
    rewrite ?shift_2, ?shift_4, ?shift_6;
    repeat match goal with
      | H : on_option _ ?o |- _ => destruct o; simpl in H
      | |- context [truthy_list ?l] => destruct (truthy_list l)
      end;
    repeat (rewrite ?map_app, ?map_flat_map; simpl);
    repeat match goal with
      | |- [] = [] => reflexivity
      | |- _ :: _ = _ :: _ => apply (f_equal2 cons); [apply shift_line|]
      | |- _ ++ _ = _ ++ _ => apply (f_equal2 (@app _))
      | H : forall d k, print_node ?c (d + k) = _
        |- print_node ?c (_ + _) = _ => apply H
      | |- flat_map _ ?l = flat_map _ ?l =>
          apply flat_map_ext_in;
          let x := fresh "x" in let Hx := fresh "Hx" in
          intros x Hx;
          match type of x with
          | (_ * _)%type => destruct x
          | _ => idtac
          end; simpl; rewrite ?map_app; simpl
      | H : Forall _ ?l, Hx : In _ ?l |- _ =>
          rewrite Forall_forall in H; specialize (H _ Hx); simpl in H
      | H : _ /\ _ |- _ => destruct H
      end.
Qed.

(** A string literal whose text holds a newline. *)
Definition two_line_literal : node :=
  StringLiteralNode ("a" +++ String newline "b") false.

(** X1: rendering a node deeper changes nothing but the blanks.  Of the
    strings passed to [print], one per call: at depth [d + k] each is the
    string passed at depth [d] behind [k] more blanks, so every rendering is
    the rendering at depth 0 shifted, and the number of calls does not
    depend on the depth.  Of the lines of the output: when no printed string
    holds a newline, they are those strings and are shifted alike; a newline
    inside a payload splits its string into lines of which only the first is
    behind the blanks. *)
Theorem print_node_shift (n : node) (d k : nat) :
  print_node n (d + k) = map (fun l => spaces k +++ l) (print_node n d)
  /\ print_node n d = map (fun l => spaces d +++ l) (print_node n 0)
  /\ List.length (print_node n d) = List.length (print_node n 0)
  /\ (forallb newline_free (print_node n 0) = true ->
      text_lines (stdout_text (print_node n (d + k)))
      = map (fun l => spaces k +++ l)
            (text_lines (stdout_text (print_node n d))))
  /\ text_lines (stdout_text (print_node two_line_literal 2))
     = ["  StringLiteral(" +++ dquote +++ "a"; "b" +++ dquote +++ ")"].
Proof.
  assert (forall j, print_node n j
                    = map (fun l => spaces j +++ l) (print_node n 0))
    as H by exact (print_node_deeper n 0).
  split; [apply print_node_deeper|].
  split; [apply H|].
  split; [rewrite (H d); apply length_map|].
  split; [|reflexivity].
  intros Hfree.
  rewrite !text_lines_stdout;
    [apply print_node_deeper | |];
    rewrite H, newline_free_shift; exact Hfree.
Qed.

(** *** The tag line is the only line at the depth of the node *)

(** X2: among the strings a node passes to [print] at depth [d], the tag
    line is the only one behind exactly [d] blanks; every other one is
    behind at least [d + 2].  So of what a list of statements prints at one
    depth, the strings behind exactly that many blanks are as many as the
    statements.  When no printed string holds a newline the same is true of
    the lines of the output; a newline inside a payload can put a second
    line at the depth of the node. *)
Theorem tag_line_only_at_depth (n : node) (d : nat) :
  print_node n d = (spaces d +++ tag n) :: tl (print_node n d)
  /\ Forall (fun l => d + 2 <= indent_of l) (tl (print_node n d))
  /\ filter (fun l => Nat.eqb (indent_of l) d) (print_node n d)
     = [spaces d +++ tag n]
  /\ (forall forest,
         List.length
           (filter (fun l => Nat.eqb (indent_of l) d)
                   (flat_map (fun stmt => print_node stmt d) forest))
         = List.length forest)
  /\ (forallb newline_free (print_node n d) = true ->
      filter (fun l => Nat.eqb (indent_of l) d)
             (text_lines (stdout_text (print_node n d)))
      = [spaces d +++ tag n])
  /\ filter (fun l => Nat.eqb (indent_of l) 0)
            (text_lines (stdout_text (print_node two_line_literal 0)))
     = ["StringLiteral(" +++ dquote +++ "a"; "b" +++ dquote +++ ")"].
Proof.
  split; [now rewrite print_node_outline|].
  split; [apply rest_indented|].
  split; [apply tag_line_filter|].
  split.
  { induction forest as [|stmt forest IH]; simpl; [reflexivity|].
    rewrite filter_app, tag_line_filter, length_app, IH. reflexivity. }
  split; [|reflexivity].
  intros Hfree. rewrite (text_lines_stdout _ Hfree). apply tag_line_filter.
Qed.

(** *** Every node of a tree is rendered inside the tree *)

Section outline_induction.
Variable P : outline -> Prop.
Hypothesis H_Label : forall text under, Forall P under -> P (Label text under).
Hypothesis H_Sub : forall child, P (Sub child).

Fixpoint outline_nested_ind (o : outline) : P o :=
  match o with
  | Label text under =>
      H_Label text under
        ((fix all (l : list outline) : Forall P l :=
            match l with
            | [] => Forall_nil P
            | x :: l' => Forall_cons x (outline_nested_ind x) (all l')
            end) under)
  | Sub child => H_Sub child
  end.
End outline_induction.

(** The strings [block] stand, whole and in a row, among the strings
    [whole]. *)
Definition appears_in (block whole : list string) : Prop :=
  exists before after, whole = before ++ block ++ after.

Lemma appears_in_refl (l : list string) : appears_in l l.
Proof. exists [], []. simpl. now rewrite app_nil_r. Qed.

Lemma appears_in_trans (a b c : list string) :
  appears_in a b -> appears_in b c -> appears_in a c.
Proof.
  intros (p1 & q1 & ->) (p2 & q2 & ->).
  exists (p2 ++ p1), (q1 ++ q2). now rewrite <- !app_assoc.
Qed.

Lemma appears_in_cons (x : string) (a b : list string) :
  appears_in a b -> appears_in a (x :: b).
Proof. intros (p & q & ->). now exists (x :: p), q. Qed.

Lemma appears_in_flat_map {A : Type} (f : A -> list string)
      (l : list A) (x : A) (a : list string) :
  In x l -> appears_in a (f x) -> appears_in a (flat_map f l).
Proof.
  intros Hx Ha. apply in_split in Hx. destruct Hx as (l1 & l2 & ->).
  rewrite flat_map_app. simpl. eapply appears_in_trans; [exact Ha|].
  now exists (flat_map f l1), (flat_map f l2).
Qed.

Lemma appears_in_head (x : string) (block whole : list string) :
  appears_in (x :: block) whole -> In x whole.
Proof.
  intros (before & after & ->). apply in_or_app. right. now left.
Qed.

Lemma calls_rendered (o : outline) :
  forall j c k, In (c, k) (calls j o) ->
                appears_in (print_node c k) (render j o).
Proof.
  induction o as [text under IH|child] using outline_nested_ind;
    intros j c k Hin; simpl in *.
  - apply appears_in_cons. apply in_flat_map in Hin.
    destruct Hin as (o & Ho & Hin). rewrite Forall_forall in IH.
    eapply appears_in_flat_map; [exact Ho | now apply IH].
  - destruct Hin as [Hin|[]]. injection Hin as <- <-. apply appears_in_refl.
Qed.

(** What a child prints stands whole among the strings of its parent. *)
Lemma child_rendered (n : node) (d : nat) (c : node) (k : nat) :
  In (c, k) (child_calls n d) ->
  d + 2 <= k /\ k <= d + 6 /\ appears_in (print_node c k) (print_node n d).
Proof.
  intros Hin.
  pose proof (child_calls_depth n d) as H. rewrite Forall_forall in H.
  specialize (H _ Hin). simpl in H.
  split; [lia|]. split; [lia|].
  rewrite child_calls_outline in Hin. rewrite (print_node_outline n d).
  apply appears_in_cons. apply in_flat_map in Hin.
  destruct Hin as (o & Ho & Hin).
  eapply appears_in_flat_map; [exact Ho | now apply calls_rendered].
Qed.

(** The nodes held in the fields of a node, in the order of the fields and,
    within a list, a dict or a list of pairs, of its entries. *)
Definition subnodes (self : node) : list node :=
  match self with
  | BinaryOpNode _ lhs rhs => [lhs; rhs]
  | AssignmentNode target value => [target; value]
  | FunctionCallNode callable arguments keyword_args =>
      callable :: arguments ++ map snd keyword_args
  | ParameterNode _ (Some default_value) _ => [default_value]
  | FunctionDefNode _ parameters body => parameters ++ body
  | ClassDefNode _ bases body => bases ++ body
  | ReturnNode (Some value) => [value]
  | IfNode condition then_body else_body =>
      condition :: then_body ++ else_body
  | WhileNode condition body => condition :: body
  | ForNode target iterable body => target :: iterable :: body
  | AttributeNode value _ => [value]
  | ListNode elements => elements
  | DictNode items => flat_map (fun kv => [fst kv; snd kv]) items
  | SubscriptNode value index => [value; index]
  | _ => []
  end.

(** [inside c n]: the node [c] is held in a field of [n], or in a field of a
    node inside [n]. *)
Inductive inside (c : node) : node -> Prop :=
  | inside_field (n : node) : In c (subnodes n) -> inside c n
  | inside_deeper (m n : node) : In m (subnodes n) -> inside c m -> inside c n.

Lemma map_fst_pairs {A : Type} (k : nat) (l : list (A * A)) :
  map fst (flat_map (fun kv => [(fst kv, k); (snd kv, k)]) l)
  = flat_map (fun kv => [fst kv; snd kv]) l.
Proof. induction l as [|x l IH]; simpl; [reflexivity | now rewrite IH]. Qed.

(** [print_node] calls itself on the nodes held in the fields, on each of
    them and on nothing else, in their order. *)
Lemma child_calls_subnodes (n : node) (d : nat) :
  map fst (child_calls n d) = subnodes n.
Proof.
  destruct n; simpl; try reflexivity;
    repeat match goal with
      | |- context [match ?o with Some _ => _ | None => _ end] =>
          destruct o; simpl
      end;
    rewrite ?map_app, ?map_map, ?map_fst_pairs; simpl;
    rewrite ?map_id; reflexivity.
Qed.

Lemma subnode_called (n : node) (d : nat) (c : node) :
  In c (subnodes n) -> exists k, In (c, k) (child_calls n d).
Proof.
  rewrite <- (child_calls_subnodes n d). intros H.
  apply in_map_iff in H. destruct H as ([c' k] & <- & H). now exists k.
Qed.

(** X3: no subtree is skipped or cut up.  Every node held in a field of
    [n], or of a node inside [n], is rendered when [n] is, strictly deeper
    than [n]: the strings passed to [print] for it at that depth, its tag
    line first, stand whole and in a row among the strings passed to
    [print] for [n]. *)
Theorem subtree_rendered_inside (n : node) (d : nat) (c : node) :
  inside c n ->
  exists k,
    d + 2 <= k
    /\ appears_in (print_node c k) (print_node n d)
    /\ In (spaces k +++ tag c) (print_node n d).
Proof.
  intros H. revert d.
  induction H as [n Hin | m n Hin _ IH]; intros d.
  - destruct (subnode_called n d c Hin) as (k & Hk).
    destruct (child_rendered n d c k Hk) as (Hd & _ & Ha).
    exists k. split; [exact Hd|]. split; [exact Ha|].
    rewrite (print_node_outline c k) in Ha.
    exact (appears_in_head _ _ _ Ha).
  - destruct (subnode_called n d m Hin) as (j & Hj).
    destruct (child_rendered n d m j Hj) as (Hd & _ & Ha).
    destruct (IH j) as (k & Hk & Hc & _).
    assert (appears_in (print_node c k) (print_node n d)) as Hcn
      by (eapply appears_in_trans; eassumption).
    exists k. split; [lia|]. split; [exact Hcn|].
    rewrite (print_node_outline c k) in Hcn.
    exact (appears_in_head _ _ _ Hcn).
Qed.

(** The second literal of [x = 1 + 2] is inside the assignment, and its
    line is among the lines of the assignment. *)
Lemma subtree_rendered_inside_witness :
  inside (IntLiteralNode 2)
         (AssignmentNode (IdentifierNode "x")
            (BinaryOpNode "+" (IntLiteralNode 1) (IntLiteralNode 2)))
  /\ exists k,
       0 + 2 <= k
       /\ appears_in (print_node (IntLiteralNode 2) k)
            ["Assignment"; "  Target:"; "    Identifier(x)"; "  Value:";
             "    BinaryOp(+)"; "      IntLiteral(1)"; "      IntLiteral(2)"]
       /\ In (spaces k +++ "IntLiteral(2)")
            ["Assignment"; "  Target:"; "    Identifier(x)"; "  Value:";
             "    BinaryOp(+)"; "      IntLiteral(1)"; "      IntLiteral(2)"].
Proof.
  assert (inside (IntLiteralNode 2)
            (AssignmentNode (IdentifierNode "x")
               (BinaryOpNode "+" (IntLiteralNode 1) (IntLiteralNode 2))))
    as H.
  { eapply inside_deeper; [right; left; reflexivity|].
    apply inside_field. right. left. reflexivity. }
  split; [exact H|].
  exact (subtree_rendered_inside _ 0 _ H).
Defined.

End Shape.

(* ================================================================= *)
(** ** What a rendering tells about the node *)

From Stdlib Require DecimalPos DecimalZ.

Module Tags.
Import Ast Layout Rendering.

(** *** The tag line names the class *)

Lemma tag_class (n1 n2 : node) :
  tag n1 = tag n2 -> Classes.class_of_node n1 = Classes.class_of_node n2.
Proof.
  destruct n1, n2; simpl; intros H; try reflexivity; exfalso;
    repeat match goal with
      | H : context [if ?b then _ else _] |- _ => destruct b; simpl in H
      end;
    discriminate H.
Qed.

(** X4: the first line of a rendering names the class of the node and
    gives its depth: when two nodes, at any depths, print the same first
    line, they are of the same class and were rendered at the same depth. *)
Theorem first_line_names_class (n1 n2 : node) (d1 d2 : nat) :
  hd_error (print_node n1 d1) = hd_error (print_node n2 d2) ->
  d1 = d2 /\ Classes.class_of_node n1 = Classes.class_of_node n2.
Proof.
  rewrite !print_node_outline. simpl. intros H. injection H as H.
  apply line_eq_inv in H; try apply tag_not_blank.
  destruct H as [Hd Ht]. split; [exact Hd | now apply tag_class].
Qed.

(** Two imports that print the same line are both imports. *)
Lemma first_line_names_class_witness :
  hd_error (print_node (ImportNode "m as n" (Some "")) 3)
  = hd_error (print_node (ImportNode "m" (Some "n")) 3)
  /\ 3 = 3
  /\ Classes.class_of_node (ImportNode "m as n" (Some ""))
     = Classes.class_of_node (ImportNode "m" (Some "n")).
Proof.
  split; [reflexivity|].
  exact (first_line_names_class (ImportNode "m as n" (Some ""))
                                (ImportNode "m" (Some "n")) 3 3 eq_refl).
Defined.

(** *** Leaves that are rendered without loss *)

Lemma length_append (a b : string) :
  String.length (a +++ b) = String.length a + String.length b.
Proof. induction a as [|c a IH]; simpl; [reflexivity | now rewrite IH]. Qed.

Lemma append_inv_tail (a b s : string) : a +++ s = b +++ s -> a = b.
Proof.
  revert b. induction a as [|c a IH]; intros [|c' b] H; simpl in H.
  - reflexivity.
  - apply (f_equal String.length) in H. simpl in H.
    rewrite length_append in H. lia.
  - apply (f_equal String.length) in H. simpl in H.
    rewrite length_append in H. lia.
  - injection H as -> H. f_equal. now apply IH.
Qed.

(** [str] tells integers apart. *)
Lemma str_int_inj (a b : Z) : str_int a = str_int b -> a = b.
Proof.
  unfold str_int. intros H.
  assert (forall z, NilZero.int_of_string
                      (NilZero.string_of_int (Z.to_int z))
                    = Some (Z.to_int z)) as R.
  { intros z. apply NilZero.isi; destruct z; simpl; try discriminate;
      intros E; injection E as E;
      now apply DecimalPos.Unsigned.to_uint_nonnil in E. }
  apply (f_equal NilZero.int_of_string) in H. rewrite !R in H.
  injection H as H. now apply DecimalZ.to_int_inj.
Qed.

(** The leaves whose one line is their tag with, at most, a payload that
    [str] or the text itself gives back: integers, strings, booleans,
    [None], identifiers and the three keyword statements. *)
Definition plain_leaf (n : node) : bool :=
  match n with
  | IntLiteralNode _
  | StringLiteralNode _ _
  | BoolLiteralNode _
  | NoneLiteralNode
  | IdentifierNode _
  | PassNode
  | BreakNode
  | ContinueNode => true
  | _ => false
  end.

Lemma plain_leaf_tag (n1 n2 : node) :
  plain_leaf n1 = true -> plain_leaf n2 = true ->
  tag n1 = tag n2 -> n1 = n2.
Proof.
  intros H1 H2 H.
  destruct n1; try discriminate H1; destruct n2; try discriminate H2;
    simpl in H; try reflexivity;
    repeat match goal with
      | b : bool |- _ => destruct b; simpl in H
      end;
    try discriminate H; try reflexivity; injection H as H.
  - apply append_inv_tail, str_int_inj in H. now subst.
  - now apply append_inv_tail in H; subst.
  - now apply append_inv_tail in H; subst.
  - now apply append_inv_tail in H; subst.
Qed.

(** X5: integer, string and boolean literals, [None], identifiers and the
    statements [pass], [break] and [continue] are rendered without loss:
    when two such leaves print the same lines, they are the same node,
    interpolation flag of a string included, rendered at the same depth. *)
Theorem plain_leaf_rendering_injective (n1 n2 : node) (d1 d2 : nat) :
  plain_leaf n1 = true -> plain_leaf n2 = true ->
  print_node n1 d1 = print_node n2 d2 ->
  n1 = n2 /\ d1 = d2.
Proof.
  intros H1 H2. rewrite !print_node_outline. intros H.
  injection H as H _. apply line_eq_inv in H; try apply tag_not_blank.
  destruct H as [Hd Ht]. split; [now apply plain_leaf_tag | exact Hd].
Qed.

(** An interpolated string literal rendered twice at depth 2. *)
Lemma plain_leaf_rendering_injective_witness :
  print_node (StringLiteralNode "hi" true) 2 = ["  FString(" +++ dquote
                                               +++ "hi" +++ dquote +++ ")"]
  /\ (StringLiteralNode "hi" true = StringLiteralNode "hi" true /\ 2 = 2).
Proof.
  split; [reflexivity|].
  exact (plain_leaf_rendering_injective
           (StringLiteralNode "hi" true) (StringLiteralNode "hi" true) 2 2
           eq_refl eq_refl eq_refl).
Defined.

(** *** The sub-header of a default value *)

(** X6: a parameter prints the sub-header [Default Value:] exactly when it
    has a default, whatever node the default is, the literal [None]
    included; and a return statement prints more than its tag line exactly
    when it has a value. *)
Theorem default_value_header (d : nat) :
  (forall name dv kw,
      prints_header (ParameterNode name dv kw) d "Default Value:"
      <-> dv <> None)
  /\ (forall name kw,
      prints_header (ParameterNode name (Some NoneLiteralNode) kw) d
                    "Default Value:")
  /\ (forall value,
      print_node (ReturnNode value) d = [spaces d +++ "Return"]
      <-> value = None).
Proof.
  split; [|split].
  - intros name dv kw. split.
    + intros H ->. unfold prints_header in H. header_cases H.
    + intros H. destruct dv as [dv|]; [|now destruct H]. find_header.
  - intros name kw. find_header.
  - intros value. split.
    + destruct value as [v|]; [|reflexivity]. simpl.
      rewrite (print_node_outline v). discriminate.
    + intros ->. reflexivity.
Qed.

(** *** How much of an import its line keeps *)

Lemma import_tag (module : string) (alias : option string) :
  tag (ImportNode module alias)
  = "Import(" +++ (module +++ alias_suffix alias) +++ ")".
Proof.
  simpl. unfold alias_suffix. destruct (truthy_str alias); simpl.
  - reflexivity.
  - now rewrite append_empty_r.
Qed.

(** X9: two imports are rendered alike exactly when module name followed
    by [" as " + alias], for a non-empty alias, give the same text; the line
    keeps that text and nothing else of the two fields. *)
Theorem import_rendering_equal_iff
        (m1 m2 : string) (a1 a2 : option string) (d : nat) :
  print_node (ImportNode m1 a1) d = print_node (ImportNode m2 a2) d
  <-> m1 +++ alias_suffix a1 = m2 +++ alias_suffix a2.
Proof.
  rewrite !print_node_outline, !import_tag. simpl. split.
  - intros H. injection H as H. apply append_inv_head in H.
    injection H as H. now apply append_inv_tail in H.
  - intros H. now rewrite H.
Qed.

(** *** No empty string is printed *)

Lemma spaces_length (k : nat) : String.length (spaces k) = k.
Proof. induction k as [|k IH]; simpl; [reflexivity | now rewrite IH]. Qed.

Lemma indent_of_le_length (l : string) : indent_of l <= String.length l.
Proof.
  induction l as [|c l IH]; simpl; [lia|].
  destruct (Ascii.eqb c " "); lia.
Qed.

(** A string literal whose text holds an empty line. *)
Definition gapped_literal : node :=
  StringLiteralNode ("a" +++ String newline (String newline "b")) false.

(** X7: [print_node] never passes an empty string to [print]: each of its
    strings holds, after the blanks of the depth, at least one more
    character.  So when no printed string holds a newline the output has no
    empty line; an empty line in the output comes from an empty line inside
    a payload. *)
Theorem no_empty_line (n : node) (d : nat) :
  Forall (fun l => d < String.length l) (print_node n d)
  /\ Forall (fun l => l <> "") (print_node n d)
  /\ (forallb newline_free (print_node n d) = true ->
      ~ In "" (text_lines (stdout_text (print_node n d))))
  /\ In "" (text_lines (stdout_text (print_node gapped_literal 0))).
Proof.
  assert (Forall (fun l => d < String.length l) (print_node n d)) as Hlong.
  { pose proof (rest_indented n d) as Hrest.
    rewrite print_node_outline in *. simpl in Hrest. constructor.
    - rewrite length_append, spaces_length.
      destruct n; simpl; try lia; destruct is_f_string; simpl; lia.
    - eapply Forall_impl; [|exact Hrest]. simpl. intros l Hl.
      pose proof (indent_of_le_length l). lia. }
  assert (Forall (fun l => l <> "") (print_node n d)) as Hfull.
  { eapply Forall_impl; [|exact Hlong]. simpl. intros l Hl ->.
    simpl in Hl. lia. }
  split; [exact Hlong|]. split; [exact Hfull|].
  split; [|right; left; reflexivity].
  intros Hfree. rewrite (text_lines_stdout _ Hfree).
  rewrite Forall_forall in Hfull. intros H. now apply (Hfull _ H).
Qed.

End Tags.

(* ================================================================= *)
(** ** Runs of the driver *)

Module DriverRuns.
Import Ast Layout Heap Driver.

(** The rendering of a forest: when the top-level objects stand for the
    trees [trees], the last statements of the [try] block return, having
    printed the header, the dashes and the trees in order at depth 0. *)
Lemma print_tree_forest (fuel : nat) (input_file : string)
      (h : list object) (ast_nodes : list ref) (trees : list node) :
  map_option (tree_at fuel h) ast_nodes = Some trees ->
  print_tree fuel input_file ast_nodes {| heap := h; stdout := [] |}
  = (Returned tt,
     {| heap := h;
        stdout := "Abstract Syntax Tree for " +++ input_file +++ ":"
                  :: str_mul "-" 50
                  :: flat_map (fun t => print_node t 0) trees |}).
Proof.
  intros Htrees.
  assert (runs (print_tree fuel input_file ast_nodes) h (Returned tt)
               (["Abstract Syntax Tree for " +++ input_file +++ ":"]
                ++ [str_mul "-" 50]
                ++ flat_map (fun t => print_node t 0) trees)) as H.
  { unfold print_tree. apply runs_seq; [apply runs_print|].
    apply runs_seq; [apply runs_print|].
    eapply (runs_for_each (tree_at fuel h)); [|exact Htrees].
    intros r t Ht. now apply print_obj_tree. }
  exact (H {| heap := h; stdout := [] |} eq_refl).
Qed.

(** Of the strings printed for a forest at depth 0, those that start with
    no blank: one per tree. *)
Lemma forest_tag_lines (forest : list node) :
  List.length
    (filter (fun l => Nat.eqb (indent_of l) 0)
            (flat_map (fun n => print_node n 0) forest))
  = List.length forest.
Proof.
  induction forest as [|stmt forest IH]; simpl; [reflexivity|].
  rewrite filter_app, tag_line_filter, length_app, IH. reflexivity.
Qed.

(** What a run prints when the [try] block runs to its end on the trees
    [trees]: the header, fifty dashes, and each tree at depth 0. *)
Definition printed_for (input_file : string) (trees : list node)
  : list string :=
  "Abstract Syntax Tree for " +++ input_file +++ ":"
  :: str_mul "-" 50
  :: flat_map (fun t => print_node t 0) trees.

Lemma printed_for_unindented (input_file : string) (trees : list node) :
  List.length
    (filter (fun l => Nat.eqb (indent_of l) 0) (printed_for input_file trees))
  = 2 + List.length trees.
Proof. unfold printed_for. simpl. now rewrite forest_tag_lines. Qed.

(** X8: once the command line is accepted, [main] returns 0 exactly when
    the [try] block runs to its end, rendering included, and 1 exactly when
    it raises, with the report as the last string printed after whatever
    the block had printed.  When the file is read, tokenized and parsed into
    objects that stand for trees, [main] prints the header, a string of
    fifty dashes and the statements in order at depth 0, and returns 0.  Of
    the strings it passes to [print], those that start with no blank are
    these two and the tag line of each statement, so an empty program
    prints the two alone; the same holds of the lines of the output when no
    printed string holds a newline. *)
Theorem main_exit_status
        (env : collaborators) (fuel : nat) (argv : list string)
        (input_file : string) :
  parse_args env argv = inr input_file ->
  (forall out status,
      main env fuel argv = Some (out, status) ->
      status = 0%Z \/ status = 1%Z)
  /\ (forall out,
      main env fuel argv = Some (out, 0%Z)
      <-> try_body env fuel input_file = (out, Completed))
  /\ (forall out,
      main env fuel argv = Some (out, 1%Z)
      <-> exists before e,
          try_body env fuel input_file = (before, Raises e)
          /\ out = before ++ [report input_file e])
  /\ (forall source tokens h ast_nodes trees,
      read_file env input_file = inr source ->
      tokenize env source = inr tokens ->
      parse env tokens = inr (h, ast_nodes) ->
      map_option (tree_at fuel h) ast_nodes = Some trees ->
      main env fuel argv = Some (printed_for input_file trees, 0%Z)
      /\ String.length (str_mul "-" 50) = 50
      /\ List.length
           (filter (fun l => Nat.eqb (indent_of l) 0)
                   (printed_for input_file trees))
         = 2 + List.length trees
      /\ (forallb newline_free (printed_for input_file trees) = true ->
          List.length
            (filter (fun l => Nat.eqb (indent_of l) 0)
                    (text_lines (stdout_text (printed_for input_file trees))))
          = 2 + List.length trees)).
Proof.
  intros Hargs. unfold main. rewrite Hargs.
  split; [|split; [|split]].
  - intros out status.
    destruct (try_body env fuel input_file) as [out0 [|e|]];
      intros H; try discriminate H; injection H as _ <-; auto.
  - intros out.
    destruct (try_body env fuel input_file) as [out0 [|e|]]; split;
      intros H; try discriminate H.
    + now injection H as <-.
    + now injection H as <-.
  - intros out.
    destruct (try_body env fuel input_file) as [out0 [|e|]]; split;
      try (intros H; discriminate H);
      try (intros (before & e' & H & _); discriminate H).
    + intros H. injection H as <-. now exists out0, e.
    + intros (before & e' & H & ->). now injection H as <- <-.
  - intros source tokens h ast_nodes trees Hr Ht Hp Htrees.
    unfold try_body. rewrite Hr, Ht, Hp.
    rewrite (print_tree_forest _ _ _ _ _ Htrees). simpl stdout.
    split; [reflexivity|]. split; [reflexivity|].
    split; [apply printed_for_unindented|].
    intros Hfree. rewrite (text_lines_stdout _ Hfree).
    apply printed_for_unindented.
Qed.

(** A parser that returns the objects of [x = 1 + 2]. *)
Definition parses_assignment : collaborators :=
  {| token := unit;
     parse_args := one_positional;
     read_file := fun _ => inr "x = 1 + 2";
     tokenize := fun _ => inr [];
     parse := fun _ => inr (Effects.sample_heap, [4]) |}.

(** The run on [x = 1 + 2] prints nine lines, three of them unindented, and
    returns 0. *)
Lemma main_exit_status_witness :
  parse_args parses_assignment ["prog.py"] = inr "prog.py"
  /\ main parses_assignment 3 ["prog.py"]
     = Some (["Abstract Syntax Tree for prog.py:"; str_mul "-" 50;
              "Assignment"; "  Target:"; "    Identifier(x)"; "  Value:";
              "    BinaryOp(+)"; "      IntLiteral(1)"; "      IntLiteral(2)"],
             0%Z).
Proof.
  split; [reflexivity|].
  exact (proj1 (proj2 (proj2 (proj2
           (main_exit_status parses_assignment 3 ["prog.py"] "prog.py"
                             eq_refl)))
           "x = 1 + 2" [] Effects.sample_heap [4] [Effects.sample_tree]
           eq_refl eq_refl eq_refl eq_refl)).
Defined.

End DriverRuns.
